(** * TEP64Parser: a shallow embedding of [src/TEP64Parser.py]

    The development follows the source file top-down:
    - [Py]: the Python built-ins the parser calls ([str.encode],
      [int.from_bytes], [bitarray.to01], [int], [str.startswith],
      [str.replace]);
    - [SHA256]: [hashlib.sha256], as FIPS 180-4 defines it;
    - the object store (dicts and the parser instance are heap objects,
      reached through references, as in Python);
    - the class [TEP64Parser], one definition per method;
    - the properties of the decoder. *)

From Stdlib Require Import ZArith Lia List String Ascii.
From stdpp Require Import base option list gmap strings pretty.

Local Open Scope string_scope.
Local Open Scope list_scope.
Local Open Scope Z_scope.

(** ** Python built-ins *)

Module Py.

(** A [str] is a sequence of code points; the model keeps the code points
    below 256, which is what Rocq's [string] holds.  [bytes] are integers
    in [0, 256). *)
Definition bytes := list Z.

(** [s.encode("utf-8")]: one byte below U+0080, two bytes from U+0080 to
    U+00FF. *)
Definition encode_char (c : ascii) : bytes :=
  let n := Z.of_N (N_of_ascii c) in
  if n <? 128 then [n]
  else [Z.lor 192 (Z.shiftr n 6); Z.lor 128 (Z.land n 63)].

Fixpoint encode_utf8 (s : string) : bytes :=
  match s with
  | EmptyString => []
  | String c s' => encode_char c ++ encode_utf8 s'
  end.

(** [int.from_bytes(b, "big")]. *)
Definition from_bytes_big (b : bytes) : Z :=
  fold_left (fun acc x => acc * 256 + x) b 0.

(** [bitarray.to01()]: one character ['0'] or ['1'] per bit. *)
Fixpoint to01 (bs : list bool) : string :=
  match bs with
  | [] => EmptyString
  | b :: bs' => String (if b then "1"%char else "0"%char) (to01 bs')
  end.

Definition digit_value (c : ascii) : option Z :=
  let n := Z.of_N (N_of_ascii c) in
  if (48 <=? n) && (n <=? 57) then Some (n - 48) else None.

Fixpoint int_digits (acc : Z) (s : string) : option Z :=
  match s with
  | EmptyString => Some acc
  | String c s' =>
      match digit_value c with
      | Some d => int_digits (10 * acc + d) s'
      | None => None
      end
  end.

(** [int(s)] on a string of decimal digits: the base is 10 when none is
    given.  [None] stands for [ValueError] (the empty string, or a
    character that is not a digit; signs, blanks and underscores, which
    [int] also accepts, do not occur in the output of [to01]). *)
Definition int_of_str (s : string) : option Z :=
  match s with
  | EmptyString => None
  | _ => int_digits 0 s
  end.

(** [s.startswith(p)]. *)
Definition startswith (s p : string) : bool := String.prefix p s.

(** [s.replace(old, new)] for a non-empty [old]: every occurrence of
    [old], scanning from the left and not overlapping, is replaced.
    [skip] counts the characters of a matched occurrence still to be
    dropped. *)
Fixpoint replace_from (old new : string) (skip : nat) (s : string) : string :=
  match s with
  | EmptyString => EmptyString
  | String c s' =>
      match skip with
      | S k => replace_from old new k s'
      | O =>
          if String.prefix old s
          then new +:+ replace_from old new (String.length old - 1) s'
          else String c (replace_from old new O s')
      end
  end.

Definition replace (s old new : string) : string := replace_from old new O s.

(** The unsigned value of a bit string, most significant bit first. *)
Definition bits_value (bs : list bool) : Z :=
  fold_left (fun acc (b : bool) => 2 * acc + (if b then 1 else 0)) bs 0.

(** The [w] bits of [n], most significant first. *)
Fixpoint bits_of (w : nat) (n : Z) : list bool :=
  match w with
  | O => []
  | S w' => Z.testbit n (Z.of_nat w') :: bits_of w' n
  end.

End Py.

(** ** hashlib.sha256 (FIPS 180-4) *)

Module SHA256.

Definition word (x : Z) : Z := x mod 2 ^ 32.
Definition add (x y : Z) : Z := word (x + y).
Definition rotr (n x : Z) : Z := Z.lor (Z.shiftr x n) (word (Z.shiftl x (32 - n))).
Definition shr (n x : Z) : Z := Z.shiftr x n.
Definition neg (x : Z) : Z := Z.lxor x 0xffffffff.

Definition Ch (x y z : Z) : Z := Z.lxor (Z.land x y) (Z.land (neg x) z).
Definition Maj (x y z : Z) : Z :=
  Z.lxor (Z.lxor (Z.land x y) (Z.land x z)) (Z.land y z).
Definition Sigma0 (x : Z) : Z := Z.lxor (Z.lxor (rotr 2 x) (rotr 13 x)) (rotr 22 x).
Definition Sigma1 (x : Z) : Z := Z.lxor (Z.lxor (rotr 6 x) (rotr 11 x)) (rotr 25 x).
Definition sigma0 (x : Z) : Z := Z.lxor (Z.lxor (rotr 7 x) (rotr 18 x)) (shr 3 x).
Definition sigma1 (x : Z) : Z := Z.lxor (Z.lxor (rotr 17 x) (rotr 19 x)) (shr 10 x).

(** The first 64 primes. *)
Definition primes : list Z :=
  [ 2; 3; 5; 7; 11; 13; 17; 19; 23; 29; 31; 37; 41; 43; 47; 53;
    59; 61; 67; 71; 73; 79; 83; 89; 97; 101; 103; 107; 109; 113; 127; 131;
    137; 139; 149; 151; 157; 163; 167; 173; 179; 181; 191; 193; 197; 199; 211; 223;
    227; 229; 233; 239; 241; 251; 257; 263; 269; 271; 277; 281; 283; 293; 307; 311 ].

(** The integer cube root of [n], below [2 ^ bits], one bit at a time. *)
Fixpoint cube_root (bits : nat) (n r : Z) : Z :=
  match bits with
  | O => r
  | S b =>
      let r' := r + 2 ^ Z.of_nat b in
      cube_root b n (if r' * r' * r' <=? n then r' else r)
  end.

(** The round constants: the first 32 bits of the fractional parts of the
    cube roots of the primes (0x428a2f98, 0x71374491, ...). *)
Definition K : list Z :=
  Eval vm_compute in map (fun p => word (cube_root 40 (p * 2 ^ 96) 0)) primes.

(** The eight working variables, also the chaining value. *)
Record state := State { sa : Z; sb : Z; sc : Z; sd : Z; se : Z; sf : Z; sg : Z; sh : Z }.

(** The initial chaining value: the first 32 bits of the fractional parts
    of the square roots of the first eight primes (0x6a09e667, ...). *)
Definition H0 : state :=
  Eval vm_compute in
    let h p := word (Z.sqrt (p * 2 ^ 64)) in
    State (h 2) (h 3) (h 5) (h 7) (h 11) (h 13) (h 17) (h 19).

(** Padding: the byte 0x80, zero bytes up to 56 modulo 64, then the
    message length in bits on 8 bytes, big-endian. *)
Fixpoint be_bytes (n : nat) (x : Z) : list Z :=
  match n with
  | O => []
  | S n' => Z.shiftr x (8 * Z.of_nat n') mod 256 :: be_bytes n' x
  end.

Definition pad (msg : list Z) : list Z :=
  let len := Z.of_nat (length msg) in
  msg ++ [0x80] ++ repeat 0 (Z.to_nat ((55 - len) mod 64)) ++ be_bytes 8 (8 * len).

(** The sixteen 32-bit words of a 64-byte block. *)
Fixpoint block_words (n : nat) (bs : list Z) : list Z :=
  match n with
  | O => []
  | S n' => Py.from_bytes_big (take 4 bs) :: block_words n' (drop 4 bs)
  end.

(** The message schedule: [n] more words after the ones in [ws]. *)
Fixpoint schedule (n : nat) (ws : list Z) : list Z :=
  match n with
  | O => ws
  | S n' =>
      let t := length ws in
      let at_ (i : nat) := nth (t - i) ws 0 in
      schedule n'
        (ws ++ [add (add (sigma1 (at_ 2%nat)) (at_ 7%nat))
                    (add (sigma0 (at_ 15%nat)) (at_ 16%nat))])
  end.

Definition round (s : state) (kw : Z * Z) : state :=
  let '(k, w) := kw in
  let t1 := add (add (add (add (sh s) (Sigma1 (se s))) (Ch (se s) (sf s) (sg s))) k) w in
  let t2 := add (Sigma0 (sa s)) (Maj (sa s) (sb s) (sc s)) in
  State (add t1 t2) (sa s) (sb s) (sc s) (add (sd s) t1) (se s) (sf s) (sg s).

Definition compress (h : state) (block : list Z) : state :=
  let ws := schedule 48 (block_words 16 block) in
  let s := fold_left round (combine K ws) h in
  State (add (sa h) (sa s)) (add (sb h) (sb s)) (add (sc h) (sc s)) (add (sd h) (sd s))
        (add (se h) (se s)) (add (sf h) (sf s)) (add (sg h) (sg s)) (add (sh h) (sh s)).

Fixpoint blocks (n : nat) (h : state) (bs : list Z) : state :=
  match n with
  | O => h
  | S n' => blocks n' (compress h (take 64 bs)) (drop 64 bs)
  end.

(** [sha256(msg).digest()]: 32 bytes. *)
Definition digest (msg : list Z) : list Z :=
  let p := pad msg in
  let h := blocks (length p / 64) H0 p in
  be_bytes 4 (sa h) ++ be_bytes 4 (sb h) ++ be_bytes 4 (sc h) ++ be_bytes 4 (sd h) ++
  be_bytes 4 (se h) ++ be_bytes 4 (sf h) ++ be_bytes 4 (sg h) ++ be_bytes 4 (sh h).

End SHA256.

(** [TEP64Parser.calculate_key] (static method, lines 137-149). *)
Definition calculate_key (key_string : string) : Z :=
  let key_bytes := SHA256.digest (Py.encode_utf8 key_string) in
  Py.from_bytes_big key_bytes.

(** ** Exceptions and outcomes *)

(** The three exception classes of the file (lines 6-21; the base class
    [ContentParsingError] is never raised itself), and [OtherError] for every
    class defined elsewhere ([ValueError], [TypeError], [AttributeError], the
    cell reader's own errors), with its class name. *)
Inductive exn :=
  | InvalidPrefixError (msg : string)
  | DataFetchingError (msg : string)
  | OtherError (cls msg : string).

Inductive outcome (A : Type) :=
  | Return (a : A)
  | Raise (e : exn).
Arguments Return {A} a.
Arguments Raise {A} e.

(** ** Python objects and the store *)

Definition loc := nat.

(** Dictionary keys: the prefixes are ints, the attribute names strs. *)
Inductive key :=
  | KInt (n : Z)
  | KStr (s : string).

Global Instance key_eq_dec : EqDecision key.
Proof. solve_decision. Defined.

(** Function objects: the two bound methods that [__init__] registers, and
    the functions of the caller (numbered; their behaviour is a parameter of
    the development). *)
Inductive func :=
  | BoundOffchain (self : loc)
  | BoundOnchain (self : loc)
  | UserFunc (id : nat).

Inductive val :=
  | VNone
  | VInt (n : Z)
  | VStr (s : string)
  | VRef (l : loc)
  | VFunc (f : func).

(** A [dict] keeps its items in insertion order. *)
Definition dict := list (key * val).

Fixpoint dict_get (d : dict) (k : key) : option val :=
  match d with
  | [] => None
  | (k', v) :: d' => if decide (k' = k) then Some v else dict_get d' k
  end.

(** [d[k] = v]: an existing key keeps its place, a new one goes last. *)
Fixpoint dict_set (d : dict) (k : key) (v : val) : dict :=
  match d with
  | [] => [(k, v)]
  | (k', v') :: d' =>
      if decide (k' = k) then (k, v) :: d' else (k', v') :: dict_set d' k v
  end.

(** [d.update(other)], also the second half of [{**d, **other}]. *)
Definition dict_update (d other : dict) : dict :=
  fold_left (fun acc kv => dict_set acc kv.1 kv.2) other d.

Definition dict_keys (d : dict) : list key := map fst d.

(** The attributes of a [TEP64Parser] instance (lines 49-55); the three
    dicts are held by reference. *)
Record attrs := Attrs {
  ipfs_endpoint : string;
  prefix_handlers : loc;
  extra_default_values : loc;
  default_handlers : loc
}.

Inductive obj :=
  | ODict (d : dict)
  | OParser (a : attrs).

(** The world: the object store, and the URLs requested so far with
    [requests.get], latest last. *)
Record world := World {
  heap : list obj;
  gets : list string
}.

(** ** The state and exception monad *)

Definition M (A : Type) : Type := world -> outcome A * world.

Definition ret {A} (a : A) : M A := fun w => (Return a, w).
Definition raise {A} (e : exn) : M A := fun w => (Raise e, w).
Definition bind {A B} (m : M A) (f : A -> M B) : M B :=
  fun w => match m w with
           | (Return a, w') => f a w'
           | (Raise e, w') => (Raise e, w')
           end.
Definition lift {A} (o : outcome A) : M A := fun w => (o, w).

Notation "'let*' x ':=' m 'in' f" := (bind m (fun x => f))
  (at level 10, x pattern, m at level 200, f at level 200).
Notation "m ;;; f" := (bind m (fun _ => f))
  (at level 100, right associativity).

Definition alloc (o : obj) : M loc :=
  fun w => (Return (length (heap w)), World (heap w ++ [o]) (gets w)).

Definition get_dict (l : loc) : M dict :=
  fun w => match heap w !! l with
           | Some (ODict d) => (Return d, w)
           | _ => (Raise (OtherError "TypeError" "not a dict"), w)
           end.

Definition set_dict (l : loc) (d : dict) : M unit :=
  fun w => (Return tt, World (<[l := ODict d]> (heap w)) (gets w)).

Definition get_attrs (self : loc) : M attrs :=
  fun w => match heap w !! self with
           | Some (OParser a) => (Return a, w)
           | _ => (Raise (OtherError "AttributeError" "not a TEP64Parser"), w)
           end.

Definition log_get (url : string) : M unit :=
  fun w => (Return tt, World (heap w) (gets w ++ [url])).

(** [{k1: v1, ...}]: a new dict. *)
Definition new_dict (items : dict) : M loc := alloc (ODict items).

(** [d.update(other)] on the object [d]. *)
Definition update_dict (d other : loc) : M unit :=
  let* items := get_dict d in
  let* more := get_dict other in
  set_dict d (dict_update items more).

(** [d.copy()]: a new dict with the same items. *)
Definition copy_dict (d : loc) : M loc :=
  let* items := get_dict d in alloc (ODict items).

(** [{**a, **b}]: a new dict. *)
Definition unpack_dicts (a b : loc) : M loc :=
  let* da := get_dict a in
  let* db := get_dict b in
  alloc (ODict (dict_update da db)).

(** [d.get(k)]: [None] for a missing key. *)
Definition get_item (d : loc) (k : key) : M val :=
  let* items := get_dict d in ret (default VNone (dict_get items k)).

(** [d[k] = v]. *)
Definition set_item (d : loc) (k : key) (v : val) : M unit :=
  let* items := get_dict d in set_dict d (dict_set items k v).

(** Truth value of an object: [None], [0], the empty str and the empty dict
    are false. *)
Definition truthy (w : world) (v : val) : bool :=
  match v with
  | VNone => false
  | VInt n => negb (n =? 0)
  | VStr s => negb (String.eqb s "")
  | VRef l => match heap w !! l with
              | Some (ODict []) => false
              | _ => true
              end
  | VFunc _ => true
  end.

(** ** External collaborators *)

(** The cell reader ([pytoniq_core]), through the operations the parser
    calls.  A [Slice] is a cursor; each reading operation returns the value
    read and the advanced cursor.  [refs_is_zero cs] is the value of the test
    [cs.refs == 0], [bits cs] the value of [cs.bits].  [load_dict] may return
    [None] instead of a dict. *)
Class CellReader := {
  Cell : Type;
  Slice : Type;
  Bits : Type;
  begin_parse : Cell -> Slice;
  load_bits : Z -> Slice -> outcome (list bool * Slice);
  refs_is_zero : Slice -> bool;
  bits : Slice -> Bits;
  load_string : Bits -> Slice -> outcome (string * Slice);
  load_snake_string : Slice -> outcome (string * Slice);
  load_dict : Z -> Slice -> outcome (option (gmap Z Slice) * Slice)
}.

(** The network ([requests]): [requests_get url] either raises a
    [RequestException] or answers with a response; [raise_for_status]
    raises for the statuses the library counts as errors. *)
Class Requests := {
  Response : Type;
  RequestException : Type;
  requests_get : string -> RequestException + Response;
  raise_for_status : Response -> option RequestException;
  text : Response -> string;
  exception_str : RequestException -> string
}.

(** ** The class [TEP64Parser] *)

Section TEP64Parser.

Context `{CellReader} `{Requests}.

(** What the functions of the caller do when called with a cursor. *)
Variable user_call : nat -> Slice -> M val.

(** [x or {}] (lines 50-51): the argument when it is true, else a new
    empty dict. *)
Definition or_new_dict (x : option loc) : M loc :=
  match x with
  | None => new_dict []
  | Some l => fun w => if truthy w (VRef l) then (Return l, w) else new_dict [] w
  end.

(** [__init__] (lines 35-55).  The instance and its [default_handlers]
    refer to each other (bound methods), so they are allocated together. *)
Definition init (endpoint : string) (handlers defaults : option loc) : M loc :=
  let* ph := or_new_dict handlers in
  let* ev := or_new_dict defaults in
  fun w =>
    let self := length (heap w) in
    let dh := S self in
    (Return self,
     World (heap w ++
              [OParser (Attrs endpoint ph ev dh);
               ODict [(KInt 0x01, VFunc (BoundOffchain self));
                      (KInt 0x00, VFunc (BoundOnchain self))]])
           (gets w)).

(** [fetch_data] (lines 57-79). *)
Definition fetch_data (self : loc) (uri : string) : M string :=
  let* url :=
    (if Py.startswith uri "ipfs://"
     then let* a := get_attrs self in
          ret (Py.replace uri "ipfs://" (ipfs_endpoint a))
     else ret uri) in
  log_get url ;;;
  match requests_get url with
  | inl e => raise (DataFetchingError ("Error fetching data: " +:+ exception_str e))
  | inr response =>
      match raise_for_status response with
      | Some e => raise (DataFetchingError ("Error fetching data: " +:+ exception_str e))
      | None => ret (text response)
      end
  end.

(** [parse_prefix] (lines 81-93). *)
Definition parse_prefix (cs : Slice) : outcome (Z * Slice) :=
  match load_bits 8 cs with
  | Raise e => Raise e
  | Return (prefix, cs1) =>
      match Py.int_of_str (Py.to01 prefix) with
      | Some n => Return (n, cs1)
      | None => Raise (OtherError "ValueError" "invalid literal for int() with base 10")
      end
  end.

(** Lines 109-119 of [default_handle_offchain_content]: the URI. *)
Definition offchain_uri (cs : Slice) : M string :=
  if refs_is_zero cs then
    let* (prefix_value, cs1) := lift (parse_prefix cs) in
    if negb (prefix_value =? 0x00)
    then raise (InvalidPrefixError
                  ("Invalid prefix for offchain content: " +:+ pretty prefix_value))
    else let* (uri, _) := lift (load_string (bits cs1) cs1) in ret uri
  else
    let* (uri, _) := lift (load_snake_string cs) in ret uri.

(** [default_handle_offchain_content] (lines 95-122). *)
Definition default_handle_offchain_content (self : loc) (cs : Slice) : M val :=
  let* uri := offchain_uri cs in
  let* data := fetch_data self uri in
  let* r := new_dict [(KStr "type", VStr "offchain");
                      (KStr "uri", VStr uri);
                      (KStr "data", VStr data)] in
  ret (VRef r).

(** [load_metadata] (lines 124-135). *)
Definition load_metadata (cs : Slice) : outcome (option (gmap Z Slice) * Slice) :=
  load_dict 256 cs.

(** [calculate_key] on a dictionary key: only a str has [encode]. *)
Definition calculate_key_of (label : key) : outcome Z :=
  match label with
  | KStr s => Return (calculate_key s)
  | KInt _ => Raise (OtherError "AttributeError" "'int' object has no attribute 'encode'")
  end.

(** [{label: self.calculate_key(label) for label in default_values}]
    (line 176). *)
Fixpoint metadata_keys_of (labels : list key) : outcome dict :=
  match labels with
  | [] => Return []
  | label :: rest =>
      match calculate_key_of label with
      | Raise e => Raise e
      | Return k =>
          match metadata_keys_of rest with
          | Raise e => Raise e
          | Return d => Return ((label, VInt k) :: d)
          end
      end
  end.

(** The nine fixed defaults (lines 162-172). *)
Definition default_values : dict :=
  [ (KStr "uri", VNone);
    (KStr "name", VNone);
    (KStr "description", VNone);
    (KStr "image", VNone);
    (KStr "image_data", VNone);
    (KStr "symbol", VNone);
    (KStr "decimals", VStr "9");
    (KStr "amount_style", VStr "n");
    (KStr "render_type", VStr "currency") ].

(** The loop of lines 180-184.  [metadata] is what [load_metadata]
    returned; reading a value advances its cursor, which stays in
    [metadata]. *)
Fixpoint fill_metadata (items : dict) (metadata : option (gmap Z Slice))
    (all_metadata : loc) : M unit :=
  match items with
  | [] => ret tt
  | (label, key) :: rest =>
      match metadata with
      | None => raise (OtherError "AttributeError"
                         "'NoneType' object has no attribute 'get'")
      | Some m =>
          match key with
          | VInt k =>
              match m !! k with
              | Some value_chunk =>
                  let* (value, chunk) := lift (load_snake_string value_chunk) in
                  set_item all_metadata label (VStr value) ;;;
                  fill_metadata rest (Some (<[k := chunk]> m)) all_metadata
              | None => fill_metadata rest metadata all_metadata
              end
          | _ => fill_metadata rest metadata all_metadata
          end
      end
  end.

(** [default_handle_onchain_content] (lines 151-186). *)
Definition default_handle_onchain_content (self : loc) (cs : Slice) : M val :=
  let* defaults := new_dict default_values in
  let* a := get_attrs self in
  update_dict defaults (extra_default_values a) ;;;
  let* table := get_dict defaults in
  let* keys := lift (metadata_keys_of (dict_keys table)) in
  let* metadata_keys := new_dict keys in
  let* (metadata, _) := lift (load_metadata cs) in
  let* all_metadata := copy_dict defaults in
  let* items := get_dict metadata_keys in
  fill_metadata items metadata all_metadata ;;;
  let* r := new_dict [(KStr "type", VStr "onchain");
                      (KStr "metadata", VRef all_metadata)] in
  ret (VRef r).

(** [handler(cs)]. *)
Definition call (handler : val) (cs : Slice) : M val :=
  match handler with
  | VFunc (BoundOffchain self) => default_handle_offchain_content self cs
  | VFunc (BoundOnchain self) => default_handle_onchain_content self cs
  | VFunc (UserFunc id) => user_call id cs
  | _ => raise (OtherError "TypeError" "object is not callable")
  end.

(** [parse_content] (lines 188-213). *)
Definition parse_content (self : loc) (content : Cell) : M val :=
  let cs := begin_parse content in
  let* (prefix_value, cs1) := lift (parse_prefix cs) in
  let* a := get_attrs self in
  let* handlers := unpack_dicts (default_handlers a) (prefix_handlers a) in
  let* handler := get_item handlers (KInt prefix_value) in
  fun w =>
    if truthy w handler
    then call handler cs1 w
    else raise (InvalidPrefixError ("Invalid prefix: " +:+ pretty prefix_value)) w.

End TEP64Parser.

(** ** A concrete reader and network, for examples *)

Module Sample.

(** A cursor: the bits left in the cell, the number of child cells, the
    text held by the chain of child cells, and the dictionary the cell
    holds (attribute key and value text), if any.  As in [pytoniq_core],
    [cs.refs] is the list of the child cells, which is never equal to the
    int [0], and an empty dictionary is loaded as [None]. *)
Record slice := MkSlice {
  s_bits : list bool;
  s_refs : nat;
  s_chain : string;
  s_dict : option (list (Z * string))
}.

Definition byte_bits (c : ascii) : list bool :=
  Py.bits_of 8 (Z.of_N (N_of_ascii c)).

Fixpoint string_bits (s : string) : list bool :=
  match s with
  | EmptyString => []
  | String c s' => byte_bits c ++ string_bits s'
  end.

Fixpoint bits_string (n : nat) (bs : list bool) : string :=
  match n with
  | O => EmptyString
  | S n' =>
      String (ascii_of_N (Z.to_N (Py.bits_value (take 8 bs))))
             (bits_string n' (drop 8 bs))
  end.

Definition decode (bs : list bool) : string :=
  bits_string (length bs / 8) bs.

Definition value_slice (text : string) : slice := MkSlice [] 0 text None.

Global Instance reader : CellReader := {|
  Cell := slice;
  Slice := slice;
  Bits := list bool;
  begin_parse := fun c => c;
  load_bits := fun n cs =>
    if Z.of_nat (length (s_bits cs)) <? n
    then Raise (OtherError "CellUnderflow" "not enough bits")
    else Return (take (Z.to_nat n) (s_bits cs),
                 MkSlice (drop (Z.to_nat n) (s_bits cs)) (s_refs cs) (s_chain cs) (s_dict cs));
  refs_is_zero := fun _ => false;
  bits := s_bits;
  load_string := fun b cs =>
    Return (decode b, MkSlice [] (s_refs cs) (s_chain cs) (s_dict cs));
  load_snake_string := fun cs =>
    Return (decode (s_bits cs) +:+ s_chain cs, MkSlice [] 0 "" (s_dict cs));
  load_dict := fun _ cs =>
    Return (match s_dict cs with
            | None | Some [] => None
            | Some l => Some (list_to_map (map (fun kv => (kv.1, value_slice kv.2)) l))
            end, cs)
|}.

(** A network that answers every URL with a body naming the URL, except
    a host that is down and a page that is missing. *)
Global Instance network : Requests := {|
  Response := Z * string;
  RequestException := string;
  requests_get := fun url =>
    if String.prefix "https://down.example/" url then inl "ConnectionError"
    else if String.prefix "https://example.com/missing" url then inr (404, "Not Found")
    else inr (200, "body of " +:+ url);
  raise_for_status := fun r =>
    if (400 <=? r.1) && (r.1 <? 600) then Some ("HTTPError " +:+ pretty r.1) else None;
  text := fun r => r.2;
  exception_str := fun e => e
|}.

(** The functions of the caller.  Number 0 is [custom_prefix_handler] of
    the source (lines 217-229): it takes two arguments, [cs] and
    [ipfs_endpoint], so the call [handler(cs)] raises [TypeError].  Number 1
    is a handler of one argument that answers with the same dict; every
    other one returns [None]. *)
Definition user_call (id : nat) (cs : slice) : M val :=
  match id with
  | O => raise (OtherError "TypeError"
                  "custom_prefix_handler() missing 1 required positional argument: 'ipfs_endpoint'")
  | S O => let* r := new_dict [(KStr "type", VStr "custom");
                                (KStr "data", VStr "custom handler logic")] in
           ret (VRef r)
  | _ => ret VNone
  end.

Definition empty_world : world := World [] [].

(** A cell whose bits are the byte [p] followed by the text [s]. *)
Definition cell_of (p : Z) (s : string) (refs : nat) (chain : string)
    (d : option (list (Z * string))) : slice :=
  MkSlice (Py.bits_of 8 p ++ string_bits s) refs chain d.

End Sample.

(** ** Notions used by the properties *)

(** The big-endian interpretation of a byte string, as a positional sum:
    the first byte weighs [256 ^ (n - 1)], the last one 1. *)
Fixpoint big_endian_value (b : list Z) : Z :=
  match b with
  | [] => 0
  | x :: b' => x * 256 ^ Z.of_nat (length b') + big_endian_value b'
  end.

(** The attribute key as the specification words it. *)
Definition attribute_key (name : string) : Z :=
  big_endian_value (SHA256.digest (Py.encode_utf8 name)).

Definition is_byte (x : Z) : Prop := 0 <= x < 256.

Definition bit_value (b : bool) : Z := if b then 1 else 0.

(** The bits read as a decimal numeral, which is what [int(prefix.to01())]
    computes. *)
Definition decimal_reading (bs : list bool) : Z :=
  fold_left (fun acc b => 10 * acc + bit_value b) bs 0.

(** The attributes of the instance with the contents of its three dicts. *)
Record config := Config {
  cfg_attrs : attrs;
  cfg_prefix_handlers : dict;
  cfg_extra_default_values : dict;
  cfg_default_handlers : dict
}.

Definition dict_at (w : world) (l : loc) : option dict :=
  match heap w !! l with
  | Some (ODict d) => Some d
  | _ => None
  end.

Definition config_of (self : loc) (w : world) : option config :=
  match heap w !! self with
  | Some (OParser a) =>
      match dict_at w (prefix_handlers a), dict_at w (extra_default_values a),
            dict_at w (default_handlers a) with
      | Some ph, Some ev, Some dh => Some (Config a ph ev dh)
      | _, _, _ => None
      end
  | _ => None
  end.

(** The merged registry of [parse_content] (line 205). *)
Definition registry (c : config) : dict :=
  dict_update (cfg_default_handlers c) (cfg_prefix_handlers c).

(** The effective default table (lines 162-174). *)
Definition effective_defaults (extra : dict) : dict :=
  dict_update default_values extra.

(** The locations that hold the configuration. *)
Definition config_locs (self : loc) (c : config) : list loc :=
  [self; prefix_handlers (cfg_attrs c); extra_default_values (cfg_attrs c);
   default_handlers (cfg_attrs c)].

(** The URL that [fetch_data] requests. *)
Definition fetch_url (endpoint uri : string) : string :=
  if Py.startswith uri "ipfs://" then Py.replace uri "ipfs://" endpoint else uri.

Section Notions.

Context `{CellReader}.

(** The text of a value cell, when its snake string can be read. *)
Definition snake_text (chunk : Slice) : option string :=
  match load_snake_string chunk with
  | Return (t, _) => Some t
  | Raise _ => None
  end.

(** The dict [metadata_keys] for a list of attribute names. *)
Definition keys_dict (names : list string) : dict :=
  map (fun s => (KStr s, VInt (calculate_key s))) names.

(** What one turn of the loop makes of the items of [all_metadata]: the
    attribute [name] gets the text of its entry in [m], when there is one. *)
Definition fill_one (m : gmap Z Slice) (items : dict) (name : string) : dict :=
  match m !! calculate_key name with
  | Some chunk =>
      match snake_text chunk with
      | Some t => dict_set items (KStr name) (VStr t)
      | None => items
      end
  | None => items
  end.

Definition filled (m : gmap Z Slice) (names : list string) (items : dict) : dict :=
  fold_left (fill_one m) names items.

End Notions.

(** A computation keeps the configuration [c] of the parser at [self]:
    run in a world with that configuration, it ends in a world with the
    same one, whether it returns or raises; [Q] holds of what it returns. *)
Definition keeps (self : loc) (c : config) {A} (m : M A) (Q : A -> Prop) : Prop :=
  forall w, config_of self w = Some c ->
            config_of self (m w).2 = Some c /\
            forall a, (m w).1 = Return a -> Q a.

(** A location that holds no part of the configuration. *)
Definition outside (self : loc) (c : config) (l : loc) : Prop :=
  l ∉ config_locs self c.

Definition any {A} (_ : A) : Prop := True.

(** [old] occurs somewhere in [s]. *)
Fixpoint occurs (old s : string) : bool :=
  String.prefix old s ||
  match s with
  | EmptyString => false
  | String _ s' => occurs old s'
  end.

(** The byte [p] is read as its own value, or is neither 0 nor 1. *)
Definition reads_as_itself (p : Z) : bool :=
  Bool.eqb (decimal_reading (Py.bits_of 8 p) =? p) ((p =? 0) || (p =? 1)).

(** ** Sample data *)

Module Examples.

Import Sample.

(** The dicts of a caller: handlers as in the sample at the end of the
    source file ([custom_handlers], line 233), and some default values. *)
Definition custom_handlers : dict := [(KInt 0x02, VFunc (UserFunc 0))].

Definition extras : dict :=
  [(KStr "decimals", VStr "6"); (KStr "website", VStr "https://t.example/")].

(** The world of the caller before the parser is made: the two dicts, at
    addresses 0 and 1. *)
Definition start : world := World [ODict custom_handlers; ODict extras] [].

(** [parser = TEP64Parser(prefix_handlers=custom_handlers,
    extra_default_values=extras)]: the instance is at address 2. *)
Definition booted : world :=
  (init "https://ipfs.io/ipfs/" (Some 0%nat) (Some 1%nat) start).2.

Definition parser : loc := 2%nat.

Definition the_config : config :=
  Config (Attrs "https://ipfs.io/ipfs/" 0%nat 1%nat 3%nat) custom_handlers extras
         [(KInt 0x01, VFunc (BoundOffchain 2%nat)); (KInt 0x00, VFunc (BoundOnchain 2%nat))].

(** The names of the effective default table of [the_config]. *)
Definition the_names : list string :=
  ["uri"; "name"; "description"; "image"; "image_data"; "symbol"; "decimals";
   "amount_style"; "render_type"; "website"].

(** An on-chain cell: the prefix 0x00, and a dictionary with the name, the
    symbol and an entry under a key that is no attribute key. *)
Definition onchain_cell : slice :=
  cell_of 0x00 "" 1%nat ""
    (Some [(calculate_key "name", "Token"); (calculate_key "symbol", "TOK"); (5, "junk")]).

(** The cursor on [onchain_cell] after the prefix, and its dictionary as
    [load_dict] returns it. *)
Definition onchain_slice : slice :=
  MkSlice [] 1%nat ""
    (Some [(calculate_key "name", "Token"); (calculate_key "symbol", "TOK"); (5, "junk")]).

Definition onchain_dict : gmap Z slice :=
  list_to_map [(calculate_key "name", value_slice "Token");
               (calculate_key "symbol", value_slice "TOK");
               (5, value_slice "junk")].

(** A caller who registers [None] for the prefix 0x00. *)
Definition muted_handlers : dict := [(KInt 0x00, VNone)].

Definition muted : world :=
  (init "https://ipfs.io/ipfs/" (Some 0%nat) None (World [ODict muted_handlers] [])).2.

Definition muted_config : config :=
  Config (Attrs "https://ipfs.io/ipfs/" 0%nat 1%nat 3%nat) muted_handlers []
         [(KInt 0x01, VFunc (BoundOffchain 2%nat)); (KInt 0x00, VFunc (BoundOnchain 2%nat))].

(** Cursors after the off-chain prefix: the single cell of the sample
    [offchain_collection_content] of the source (line 250), which has no
    child and whose next byte is the first letter of the URI, and a cell
    with a child. *)
Definition fragment_slice : slice :=
  MkSlice (string_bits "https://nft.fragment.com/numbers.json") 0%nat "" None.

Definition snake_slice : slice :=
  MkSlice (string_bits "https://example.com/") 1%nat "m.json" None.

(** The cursor after the on-chain prefix of a cell whose dictionary is
    empty. *)
Definition empty_slice : slice := MkSlice [] 0%nat "" (Some []).

End Examples.

(** ** Notions used by the further properties *)

(** A computation preserves the invariant [I] on worlds, whether it
    returns or raises; [Q] holds of what it returns. *)
Definition preserves (I : world -> Prop) {A} (m : M A) (Q : A -> Prop) : Prop :=
  forall w, I w -> I (m w).2 /\ forall a, (m w).1 = Return a -> Q a.

(** The store still holds, at its first [n] addresses, the objects of [h0]. *)
Definition old_kept (n : nat) (h0 : list obj) (w : world) : Prop :=
  (n <= length (heap w))%nat /\ forall l, (l < n)%nat -> heap w !! l = h0 !! l.

(** No request was made since the log was [g0]. *)
Definition no_request (g0 : list string) (w : world) : Prop := gets w = g0.

(** The items of the dict that [x or {}] evaluates to. *)
Definition given (w : world) (x : option loc) : dict :=
  match x with
  | Some l => default [] (dict_at w l)
  | None => []
  end.

(** The object that [x or {}] evaluates to is the argument itself. *)
Definition aliased (w : world) (x : option loc) : bool :=
  match x with
  | Some l => truthy w (VRef l)
  | None => false
  end.

(** The two entries that [__init__] registers (lines 52-55). *)
Definition builtin_handlers (self : loc) : dict :=
  [(KInt 0x01, VFunc (BoundOffchain self)); (KInt 0x00, VFunc (BoundOnchain self))].

(** The result of the off-chain handler (line 122). *)
Definition offchain_record (uri data : string) : dict :=
  [(KStr "type", VStr "offchain"); (KStr "uri", VStr uri); (KStr "data", VStr data)].

Section Notions2.

Context `{Requests}.

(** What [fetch_data] makes of the outcome of [requests.get]. *)
Definition fetched (url : string) : outcome string :=
  match requests_get url with
  | inl e => Raise (DataFetchingError ("Error fetching data: " +:+ exception_str e))
  | inr response =>
      match raise_for_status response with
      | Some e => Raise (DataFetchingError ("Error fetching data: " +:+ exception_str e))
      | None => Return (text response)
      end
  end.

End Notions2.

(** The names of the nine fixed defaults (lines 162-172), in order. *)
Definition standard_names : list string :=
  ["uri"; "name"; "description"; "image"; "image_data"; "symbol"; "decimals";
   "amount_style"; "render_type"].

(** The byte [p] is 0 or 1, or its decimal reading is neither. *)
Definition reads_apart (p : Z) : bool :=
  implb ((decimal_reading (Py.bits_of 8 p) =? 0) || (decimal_reading (Py.bits_of 8 p) =? 1))
        ((p =? 0) || (p =? 1)).

(** ** Further sample data *)

Module Cases.

Import Sample Examples.

(** A cell of three bits. *)
Definition short_cell : slice := MkSlice [true; false; true] 0%nat "" None.

(** A caller who registers a function under 10, the decimal reading of the
    byte 0x02. *)
Definition reading_handlers : dict := [(KInt 10, VFunc (UserFunc 1))].

Definition tuned : world :=
  (init "https://ipfs.io/ipfs/" (Some 0%nat) None (World [ODict reading_handlers] [])).2.

Definition tuned_config : config :=
  Config (Attrs "https://ipfs.io/ipfs/" 0%nat 1%nat 3%nat) reading_handlers []
         (builtin_handlers 2%nat).

(** A caller who registers a function under 0x00, in place of the on-chain
    handler, and a str under 0x01. *)
Definition override_handlers : dict :=
  [(KInt 0x00, VFunc (UserFunc 1)); (KInt 0x01, VStr "offchain")].

Definition overridden : world :=
  (init "https://ipfs.io/ipfs/" (Some 0%nat) None (World [ODict override_handlers] [])).2.

Definition overridden_config : config :=
  Config (Attrs "https://ipfs.io/ipfs/" 0%nat 1%nat 3%nat) override_handlers []
         (builtin_handlers 2%nat).

(** A caller whose default values have an int among their names. *)
Definition int_named : dict := [(KStr "decimals", VStr "6"); (KInt 7, VStr "seven")].

Definition misnamed : world :=
  (init "https://ipfs.io/ipfs/" None (Some 0%nat) (World [ODict int_named] [])).2.

Definition misnamed_config : config :=
  Config (Attrs "https://ipfs.io/ipfs/" 1%nat 0%nat 3%nat) [] int_named
         (builtin_handlers 2%nat).

(** A parser made with no argument but the gateway. *)
Definition plain : world := (init "https://ipfs.io/ipfs/" None None (World [] [])).2.

Definition plain_config : config :=
  Config (Attrs "https://ipfs.io/ipfs/" 0%nat 1%nat 3%nat) [] [] (builtin_handlers 2%nat).

(** An on-chain cursor for which the reader returns no dictionary. *)
Definition bare_slice : slice := MkSlice [] 1%nat "" None.

(** A reader like the sample one, except that a snake string whose chain
    is ["?"] cannot be decoded. *)
Definition picky : CellReader := {|
  Cell := slice;
  Slice := slice;
  Bits := list bool;
  begin_parse := fun c => c;
  load_bits := @load_bits reader;
  refs_is_zero := @refs_is_zero reader;
  bits := s_bits;
  load_string := @load_string reader;
  load_snake_string := fun cs =>
    if String.eqb (s_chain cs) "?"
    then Raise (OtherError "UnicodeDecodeError" "invalid start byte")
    else @load_snake_string reader cs;
  load_dict := @load_dict reader
|}.

(** An on-chain cursor whose dictionary holds a name and an undecodable
    symbol. *)
Definition damaged_slice : slice :=
  MkSlice [] 1%nat "" (Some [(calculate_key "name", "Token"); (calculate_key "symbol", "?")]).

Definition damaged_dict : gmap Z slice :=
  list_to_map [(calculate_key "name", value_slice "Token");
               (calculate_key "symbol", value_slice "?")].

(** A cursor after the off-chain prefix whose snake string cannot be
    decoded. *)
Definition garbled_slice : slice :=
  MkSlice (string_bits "https://example.com/") 1%nat "?" None.

End Cases.
(** * Properties *)

(** ** Attribute keys *)


Lemma from_bytes_big_acc (b : list Z) (acc : Z) :
  fold_left (fun a x => a * 256 + x) b acc =
  acc * 256 ^ Z.of_nat (length b) + big_endian_value b.
Proof.
  revert acc; induction b as [|x b IH]; intros acc.
  - cbn. lia.
  - cbn [fold_left big_endian_value length]. rewrite IH.
    rewrite Nat2Z.inj_succ, Z.pow_succ_r by lia. ring.
Qed.

Lemma from_bytes_big_value (b : list Z) :
  Py.from_bytes_big b = big_endian_value b.
Proof. unfold Py.from_bytes_big. rewrite from_bytes_big_acc. lia. Qed.

Lemma big_endian_value_bound (b : list Z) :
  Forall is_byte b -> 0 <= big_endian_value b < 256 ^ Z.of_nat (length b).
Proof.
  induction 1 as [|x b Hx _ IH]; cbn [big_endian_value length].
  - cbn. lia.
  - rewrite Nat2Z.inj_succ, Z.pow_succ_r by lia.
    unfold is_byte in Hx.
    assert (0 < 256 ^ Z.of_nat (length b)) by (apply Z.pow_pos_nonneg; lia).
    nia.
Qed.

Lemma be_bytes_is_byte (n : nat) (x : Z) : Forall is_byte (SHA256.be_bytes n x).
Proof.
  induction n as [|n IH]; cbn [SHA256.be_bytes]; constructor; [|exact IH].
  unfold is_byte. apply Z.mod_pos_bound. lia.
Qed.

Lemma be_bytes_length (n : nat) (x : Z) : length (SHA256.be_bytes n x) = n.
Proof. induction n as [|n IH]; cbn [SHA256.be_bytes length]; congruence. Qed.

Lemma digest_length (msg : list Z) : length (SHA256.digest msg) = 32%nat.
Proof. unfold SHA256.digest. cbv zeta. rewrite !length_app, !be_bytes_length. reflexivity. Qed.

Lemma digest_is_byte (msg : list Z) : Forall is_byte (SHA256.digest msg).
Proof.
  unfold SHA256.digest. cbv zeta.
  repeat (apply Forall_app; split); apply be_bytes_is_byte.
Qed.

(** C8.  [calculate_key] returns, for every attribute name, the 256-bit
    unsigned integer that is the big-endian interpretation of the SHA-256
    digest of the UTF-8 encoding of the name; it is a function of the name
    alone, and on ["name"] it gives the reference value
    0x82a3537f...0be3ce89. *)
Theorem calculate_key_reference :
  (forall name : string,
      calculate_key name = attribute_key name /\
      0 <= calculate_key name < 2 ^ 256) /\
  calculate_key "name" =
    0x82a3537ff0dbce7eec35d69edc3a189ee6f17d82f353a553f9aa96cb0be3ce89.
Proof.
  split.
  - intros name. unfold calculate_key, attribute_key. cbv zeta.
    rewrite from_bytes_big_value. split; [reflexivity|].
    pose proof (big_endian_value_bound _ (digest_is_byte (Py.encode_utf8 name))) as Hb.
    rewrite digest_length in Hb.
    change (256 ^ Z.of_nat 32) with (2 ^ 256) in Hb. exact Hb.
  - vm_compute. reflexivity.
Qed.

(** ** Dictionaries *)

Lemma dict_get_set_eq (d : dict) (k : key) (v : val) :
  dict_get (dict_set d k v) k = Some v.
Proof.
  induction d as [|[k' v'] d IH]; cbn.
  - destruct (decide (k = k)); congruence.
  - destruct (decide (k' = k)) as [->|Hne]; cbn.
    + destruct (decide (k = k)); congruence.
    + destruct (decide (k' = k)); [contradiction|exact IH].
Qed.

Lemma dict_get_set_ne (d : dict) (k k' : key) (v : val) :
  k <> k' -> dict_get (dict_set d k v) k' = dict_get d k'.
Proof.
  intros Hne. induction d as [|[k0 v0] d IH]; cbn.
  - destruct (decide (k = k')); [contradiction|reflexivity].
  - destruct (decide (k0 = k)) as [->|Hk0]; cbn.
    + destruct (decide (k = k')); [contradiction|reflexivity].
    + destruct (decide (k0 = k')); [reflexivity|exact IH].
Qed.

Lemma dict_get_None (d : dict) (k : key) :
  dict_get d k = None <-> k ∉ dict_keys d.
Proof.
  unfold dict_keys. induction d as [|[k' v'] d IH]; cbn.
  - split; [intros _; apply not_elem_of_nil|reflexivity].
  - rewrite not_elem_of_cons. destruct (decide (k' = k)) as [->|Hne].
    + split; [discriminate|intros [? _]; contradiction].
    + rewrite IH. split; [intros ?; split; [congruence|assumption]|intros [_ ?]; assumption].
Qed.

Lemma dict_get_Some_key (d : dict) (k : key) (v : val) :
  dict_get d k = Some v -> k ∈ dict_keys d.
Proof.
  intros Hg. destruct (decide (k ∈ dict_keys d)) as [|Hn]; [assumption|].
  apply dict_get_None in Hn. congruence.
Qed.

Lemma dict_keys_set_in (d : dict) (k : key) (v : val) :
  k ∈ dict_keys d -> dict_keys (dict_set d k v) = dict_keys d.
Proof.
  unfold dict_keys. induction d as [|[k' v'] d IH]; cbn; intros Hin.
  - apply elem_of_nil in Hin. contradiction.
  - destruct (decide (k' = k)) as [->|Hne]; cbn; [reflexivity|].
    apply elem_of_cons in Hin as [->|Hin]; [contradiction|]. f_equal. auto.
Qed.

Lemma dict_keys_set_notin (d : dict) (k : key) (v : val) :
  k ∉ dict_keys d -> dict_keys (dict_set d k v) = dict_keys d ++ [k].
Proof.
  unfold dict_keys. induction d as [|[k' v'] d IH]; cbn; intros Hin; [reflexivity|].
  apply not_elem_of_cons in Hin as [Hne Hin].
  destruct (decide (k' = k)) as [->|_]; [contradiction|]. cbn. f_equal. auto.
Qed.

Lemma dict_set_NoDup (d : dict) (k : key) (v : val) :
  NoDup (dict_keys d) -> NoDup (dict_keys (dict_set d k v)).
Proof.
  intros Hd. destruct (decide (k ∈ dict_keys d)) as [Hin|Hin].
  - rewrite dict_keys_set_in by assumption. assumption.
  - rewrite dict_keys_set_notin by assumption.
    apply NoDup_app. repeat split; [assumption| |apply NoDup_singleton].
    intros x Hx Hx'. apply list_elem_of_singleton in Hx'. subst. contradiction.
Qed.

Lemma dict_update_cons (d other : dict) (k : key) (v : val) :
  dict_update d ((k, v) :: other) = dict_update (dict_set d k v) other.
Proof. reflexivity. Qed.

Lemma dict_update_NoDup (d other : dict) :
  NoDup (dict_keys d) -> NoDup (dict_keys (dict_update d other)).
Proof.
  revert d; induction other as [|[k v] other IH]; intros d Hd; [exact Hd|].
  rewrite dict_update_cons. apply IH, dict_set_NoDup, Hd.
Qed.

(** In [{**d, **other}] the entries of [other] win at equal keys, and the
    other entries of [d] are kept. *)
Lemma dict_get_update (d other : dict) (k : key) :
  NoDup (dict_keys other) ->
  dict_get (dict_update d other) k =
  match dict_get other k with
  | Some v => Some v
  | None => dict_get d k
  end.
Proof.
  revert d; induction other as [|[k0 v0] other IH]; intros d Hnd; [reflexivity|].
  rewrite dict_update_cons. unfold dict_keys in Hnd. cbn in Hnd.
  apply NoDup_cons in Hnd as [Hk0 Hnd]. rewrite IH by exact Hnd.
  cbn. destruct (decide (k0 = k)) as [->|Hne].
  - apply dict_get_None in Hk0. rewrite Hk0. apply dict_get_set_eq.
  - rewrite dict_get_set_ne by exact Hne. reflexivity.
Qed.

Lemma dict_keys_update (d other : dict) (k : key) :
  k ∈ dict_keys (dict_update d other) <-> k ∈ dict_keys d \/ k ∈ dict_keys other.
Proof.
  revert d; induction other as [|[k0 v0] other IH]; intros d.
  - cbn. split; [auto|intros [?|Hn]; [assumption|apply elem_of_nil in Hn; contradiction]].
  - rewrite dict_update_cons, IH. unfold dict_keys at 3. cbn. rewrite elem_of_cons.
    destruct (decide (k0 ∈ dict_keys d)) as [Hin|Hin].
    + rewrite dict_keys_set_in by assumption.
      split; [tauto|]. intros [?|[->|?]]; auto.
    + rewrite dict_keys_set_notin by assumption.
      rewrite elem_of_app, list_elem_of_singleton. fold (dict_keys other). tauto.
Qed.

(** ** Reading a prefix *)


Lemma int_digits_to01 (bs : list bool) (acc : Z) :
  Py.int_digits acc (Py.to01 bs) =
  Some (fold_left (fun a b => 10 * a + bit_value b) bs acc).
Proof.
  revert acc; induction bs as [|b bs IH]; intros acc; [reflexivity|].
  cbn [Py.to01 Py.int_digits fold_left].
  destruct b; cbn [bit_value];
    [change (Py.digit_value "1") with (Some 1)
    |change (Py.digit_value "0") with (Some 0)]; apply IH.
Qed.

Lemma int_of_str_to01 (bs : list bool) :
  bs <> [] -> Py.int_of_str (Py.to01 bs) = Some (decimal_reading bs).
Proof.
  intros Hne. destruct bs as [|b bs]; [contradiction|].
  unfold Py.int_of_str, decimal_reading. rewrite <- int_digits_to01.
  destruct b; reflexivity.
Qed.

Lemma fold_base_zero (base : Z) (bs : list bool) (acc : Z) :
  0 < base -> 0 <= acc ->
  0 <= fold_left (fun a b => base * a + bit_value b) bs acc /\
  (fold_left (fun a b => base * a + bit_value b) bs acc = 0 <->
   acc = 0 /\ Forall (fun b => b = false) bs).
Proof.
  intros Hbase. revert acc; induction bs as [|b bs IH]; intros acc Hacc.
  - cbn. split; [lia|]. split; [intros ->; split; [reflexivity|constructor]|tauto].
  - cbn [fold_left].
    assert (Hacc' : 0 <= base * acc + bit_value b) by (destruct b; cbn; nia).
    destruct (IH _ Hacc') as [Hpos Hiff]. split; [exact Hpos|].
    rewrite Hiff, Forall_cons. destruct b; cbn [bit_value].
    + split; [intros [? _]; nia|intros [_ [? _]]; discriminate].
    + split; [intros [? ?]; repeat split; [nia|assumption]
             |intros [-> [_ ?]]; split; [lia|assumption]].
Qed.

(** The decimal reading is zero exactly when the unsigned value is. *)
Lemma decimal_reading_zero (bs : list bool) :
  decimal_reading bs = 0 <-> Py.bits_value bs = 0.
Proof.
  unfold decimal_reading, Py.bits_value.
  pose proof (fold_base_zero 10 bs 0 ltac:(lia) ltac:(lia)) as [_ H10].
  pose proof (fold_base_zero 2 bs 0 ltac:(lia) ltac:(lia)) as [_ H2].
  unfold bit_value in *. rewrite H10, H2. reflexivity.
Qed.

(** ** The decoder's configuration *)


Lemma dict_at_Some (w : world) (l : loc) (d : dict) :
  dict_at w l = Some d <-> heap w !! l = Some (ODict d).
Proof.
  unfold dict_at. destruct (heap w !! l) as [[d'|a]|]; split; congruence.
Qed.

Lemma config_of_Some (self : loc) (w : world) (c : config) :
  config_of self w = Some c <->
  heap w !! self = Some (OParser (cfg_attrs c)) /\
  heap w !! prefix_handlers (cfg_attrs c) = Some (ODict (cfg_prefix_handlers c)) /\
  heap w !! extra_default_values (cfg_attrs c) = Some (ODict (cfg_extra_default_values c)) /\
  heap w !! default_handlers (cfg_attrs c) = Some (ODict (cfg_default_handlers c)).
Proof.
  unfold config_of. split.
  - destruct (heap w !! self) as [[d|a]|]; try discriminate.
    destruct (dict_at w (prefix_handlers a)) as [ph|] eqn:Hph; try discriminate.
    destruct (dict_at w (extra_default_values a)) as [ev|] eqn:Hev; try discriminate.
    destruct (dict_at w (default_handlers a)) as [dh|] eqn:Hdh; try discriminate.
    intros [= <-]. cbn. apply dict_at_Some in Hph, Hev, Hdh. auto.
  - intros (-> & Hph & Hev & Hdh). apply dict_at_Some in Hph, Hev, Hdh.
    rewrite Hph, Hev, Hdh. destruct c; reflexivity.
Qed.


(** The configuration depends on the objects at its locations only. *)
Lemma config_of_agree (self : loc) (w w' : world) (c : config) :
  config_of self w = Some c ->
  (forall l, l ∈ config_locs self c -> heap w' !! l = heap w !! l) ->
  config_of self w' = Some c.
Proof.
  intros Hc Hsame. apply config_of_Some in Hc as (Hs & Hph & Hev & Hdh).
  apply config_of_Some. unfold config_locs in Hsame.
  rewrite !Hsame by (rewrite !elem_of_cons; tauto). auto.
Qed.

Lemma config_locs_allocated (self : loc) (w : world) (c : config) (l : loc) :
  config_of self w = Some c -> l ∈ config_locs self c -> (l < length (heap w))%nat.
Proof.
  intros Hc Hl. apply config_of_Some in Hc as (Hs & Hph & Hev & Hdh).
  unfold config_locs in Hl. rewrite !elem_of_cons in Hl.
  destruct Hl as [->|[->|[->|[->|Hl]]]];
    [eapply lookup_lt_Some; eassumption..|apply elem_of_nil in Hl; contradiction].
Qed.

(** ** Running the primitives *)

Lemma bind_Return {A B} (m : M A) (f : A -> M B) (w w' : world) (a : A) :
  m w = (Return a, w') -> bind m f w = f a w'.
Proof. unfold bind. intros ->. reflexivity. Qed.

Lemma bind_Raise {A B} (m : M A) (f : A -> M B) (w w' : world) (e : exn) :
  m w = (Raise e, w') -> bind m f w = (Raise e, w').
Proof. unfold bind. intros ->. reflexivity. Qed.

Lemma get_attrs_run (w : world) (self : loc) (a : attrs) :
  heap w !! self = Some (OParser a) -> get_attrs self w = (Return a, w).
Proof. unfold get_attrs. intros ->. reflexivity. Qed.

Lemma get_dict_run (w : world) (l : loc) (d : dict) :
  heap w !! l = Some (ODict d) -> get_dict l w = (Return d, w).
Proof. unfold get_dict. intros ->. reflexivity. Qed.

Lemma lookup_new (h : list obj) (o : obj) : (h ++ [o]) !! length h = Some o.
Proof. apply list_lookup_middle. reflexivity. Qed.

Lemma lookup_old (h more : list obj) (l : loc) (o : obj) :
  h !! l = Some o -> (h ++ more) !! l = Some o.
Proof. intros Hl. rewrite lookup_app_l; [exact Hl|]. eapply lookup_lt_Some, Hl. Qed.

Lemma unpack_dicts_run (w : world) (a b : loc) (da db : dict) :
  heap w !! a = Some (ODict da) -> heap w !! b = Some (ODict db) ->
  unpack_dicts a b w =
  (Return (length (heap w)), World (heap w ++ [ODict (dict_update da db)]) (gets w)).
Proof.
  intros Ha Hb. unfold unpack_dicts.
  rewrite (bind_Return _ _ _ _ _ (get_dict_run _ _ _ Ha)).
  rewrite (bind_Return _ _ _ _ _ (get_dict_run _ _ _ Hb)). reflexivity.
Qed.

Lemma truthy_old (w : world) (more : list obj) (g : list string) (v : val) :
  truthy w v = false -> truthy (World (heap w ++ more) g) v = false.
Proof.
  destruct v as [| | |l|]; cbn; try tauto.
  destruct (heap w !! l) as [o|] eqn:Hl; [|discriminate].
  rewrite (lookup_old _ more _ _ Hl). tauto.
Qed.

Section Properties.

Context `{CellReader} `{Requests}.
Variable user_call : nat -> Slice -> M val.

(** ** Dispatch *)

(** What [parse_content] does once the prefix is read: it builds the merged
    registry as a new dict, looks the prefix up, and calls what it finds when
    that is true. *)
Lemma parse_content_run (self : loc) (content : Cell) (w : world) (c : config)
    (p : Z) (cs1 : Slice) :
  config_of self w = Some c ->
  parse_prefix (begin_parse content) = Return (p, cs1) ->
  parse_content user_call self content w =
  let w' := World (heap w ++ [ODict (registry c)]) (gets w) in
  let handler := default VNone (dict_get (registry c) (KInt p)) in
  if truthy w' handler then call user_call handler cs1 w'
  else (Raise (InvalidPrefixError ("Invalid prefix: " +:+ pretty p)), w').
Proof.
  intros Hc Hp. apply config_of_Some in Hc as (Hs & Hph & Hev & Hdh).
  unfold parse_content. cbv zeta. rewrite Hp.
  unfold lift at 1. unfold bind at 1. cbv beta iota.
  rewrite (bind_Return _ _ _ _ _ (get_attrs_run _ _ _ Hs)).
  rewrite (bind_Return _ _ _ _ _ (unpack_dicts_run _ _ _ _ _ Hdh Hph)).
  unfold get_item.
  erewrite bind_Return; [|erewrite bind_Return; [reflexivity|apply get_dict_run, lookup_new]].
  reflexivity.
Qed.

(** C3.  When the prefix value that [parse_prefix] returns has no entry in
    the merged registry, [parse_content] raises [InvalidPrefixError] with a
    message that carries that value; no handler runs: nothing is requested
    from the network and the only new object is the merged registry. *)
Theorem parse_content_unknown_prefix (self : loc) (content : Cell) (w : world)
    (c : config) (p : Z) (cs1 : Slice) :
  config_of self w = Some c ->
  parse_prefix (begin_parse content) = Return (p, cs1) ->
  dict_get (registry c) (KInt p) = None ->
  parse_content user_call self content w =
  (Raise (InvalidPrefixError ("Invalid prefix: " +:+ pretty p)),
   World (heap w ++ [ODict (registry c)]) (gets w)).
Proof.
  intros Hc Hp Hnone. rewrite (parse_content_run _ _ _ _ _ _ Hc Hp).
  cbv zeta. rewrite Hnone. reflexivity.
Qed.

(** C10.  When the caller's dict maps the parsed prefix to an object that is
    false ([None], [0], the empty str, an empty dict), [parse_content] raises
    [InvalidPrefixError] and calls nothing, although the key is present. *)
Theorem parse_content_falsy_handler (self : loc) (content : Cell) (w : world)
    (c : config) (p : Z) (cs1 : Slice) (h : val) :
  config_of self w = Some c ->
  NoDup (dict_keys (cfg_prefix_handlers c)) ->
  parse_prefix (begin_parse content) = Return (p, cs1) ->
  dict_get (cfg_prefix_handlers c) (KInt p) = Some h ->
  truthy w h = false ->
  KInt p ∈ dict_keys (registry c) /\
  parse_content user_call self content w =
  (Raise (InvalidPrefixError ("Invalid prefix: " +:+ pretty p)),
   World (heap w ++ [ODict (registry c)]) (gets w)).
Proof.
  intros Hc Hnd Hp Hget Hfalse.
  assert (Hreg : dict_get (registry c) (KInt p) = Some h).
  { unfold registry. rewrite dict_get_update by exact Hnd. rewrite Hget. reflexivity. }
  split; [eapply dict_get_Some_key, Hreg|].
  rewrite (parse_content_run _ _ _ _ _ _ Hc Hp). cbv zeta. rewrite Hreg. cbn [default].
  rewrite (truthy_old w _ _ _ Hfalse). reflexivity.
Qed.

(** Dispatch on the parsed value: a true entry of the merged registry is
    called with the cursor left after the prefix, and its result is the
    result of [parse_content]. *)
Lemma parse_content_dispatch (self : loc) (content : Cell) (w : world)
    (c : config) (p : Z) (cs1 : Slice) (f : func) :
  config_of self w = Some c ->
  parse_prefix (begin_parse content) = Return (p, cs1) ->
  dict_get (registry c) (KInt p) = Some (VFunc f) ->
  parse_content user_call self content w =
  call user_call (VFunc f) cs1 (World (heap w ++ [ODict (registry c)]) (gets w)).
Proof.
  intros Hc Hp Hreg. rewrite (parse_content_run _ _ _ _ _ _ Hc Hp).
  cbv zeta. rewrite Hreg. reflexivity.
Qed.

(** The value [parse_prefix] returns is the decimal reading of the eight
    bits, not their unsigned value. *)
Lemma parse_prefix_decimal (cs cs1 : Slice) (bs : list bool) :
  load_bits 8 cs = Return (bs, cs1) -> bs <> [] ->
  parse_prefix cs = Return (decimal_reading bs, cs1).
Proof.
  intros Hl Hne. unfold parse_prefix. rewrite Hl, (int_of_str_to01 _ Hne). reflexivity.
Qed.


(** ** The off-chain handler *)

(** What the branch of lines 112-117 does, for a reader on which the test
    of line 111 can be true. *)
Lemma offchain_uri_marker (cs cs1 : Slice) (marker : list bool) (w : world) :
  refs_is_zero cs = true ->
  load_bits 8 cs = Return (marker, cs1) ->
  marker <> [] ->
  offchain_uri cs w =
  if negb (decimal_reading marker =? 0)
  then (Raise (InvalidPrefixError
                 ("Invalid prefix for offchain content: " +:+
                  pretty (decimal_reading marker))), w)
  else (match load_string (bits cs1) cs1 with
        | Return (uri, _) => Return uri
        | Raise e => Raise e
        end, w).
Proof.
  intros Hrefs Hbits Hne. unfold offchain_uri. rewrite Hrefs.
  rewrite (parse_prefix_decimal _ _ _ Hbits Hne).
  unfold lift at 1. unfold bind at 1. cbv beta iota.
  destruct (negb (decimal_reading marker =? 0)); [reflexivity|].
  unfold bind, lift, ret. destruct (load_string (bits cs1) cs1) as [[uri cs2]|e]; reflexivity.
Qed.

(** When the test of line 111 is false, the URI is the snake string of the
    cursor: no marker is read, whatever the first bits are and whether the
    cell has children or not. *)
Lemma offchain_uri_snake (cs : Slice) (w : world) :
  refs_is_zero cs = false ->
  offchain_uri cs w =
  (match load_snake_string cs with
   | Return (uri, _) => Return uri
   | Raise e => Raise e
   end, w).
Proof.
  intros Hrefs. unfold offchain_uri. rewrite Hrefs.
  unfold bind, lift, ret. destruct (load_snake_string cs) as [[uri cs2]|e]; reflexivity.
Qed.

(** The handler fetches the URI it read and answers with a new dict that
    holds the URI as read. *)
Lemma offchain_result (self : loc) (cs : Slice) (w w1 : world) (uri data : string) :
  offchain_uri cs w = (Return uri, w) ->
  fetch_data self uri w = (Return data, w1) ->
  default_handle_offchain_content self cs w =
  (Return (VRef (length (heap w1))),
   World (heap w1 ++ [ODict [(KStr "type", VStr "offchain");
                             (KStr "uri", VStr uri);
                             (KStr "data", VStr data)]]) (gets w1)).
Proof.
  intros Huri Hfetch. unfold default_handle_offchain_content.
  rewrite (bind_Return _ _ _ _ _ Huri), (bind_Return _ _ _ _ _ Hfetch). reflexivity.
Qed.

(** ** Fetching *)

Lemma fetch_data_run (self : loc) (uri : string) (w : world) (a : attrs) :
  heap w !! self = Some (OParser a) ->
  fetch_data self uri w =
  (match requests_get (fetch_url (ipfs_endpoint a) uri) with
   | inl e => Raise (DataFetchingError ("Error fetching data: " +:+ exception_str e))
   | inr response =>
       match raise_for_status response with
       | Some e => Raise (DataFetchingError ("Error fetching data: " +:+ exception_str e))
       | None => Return (text response)
       end
   end,
   World (heap w) (gets w ++ [fetch_url (ipfs_endpoint a) uri])).
Proof.
  intros Hs. unfold fetch_data, fetch_url.
  destruct (Py.startswith uri "ipfs://").
  - erewrite bind_Return;
      [|erewrite bind_Return; [reflexivity|apply get_attrs_run, Hs]].
    unfold bind at 1, log_get at 1. cbv beta iota.
    destruct (requests_get _) as [e|r]; [reflexivity|].
    destruct (raise_for_status r); reflexivity.
  - unfold bind at 1, ret at 1. cbv beta iota.
    unfold bind at 1, log_get at 1. cbv beta iota.
    destruct (requests_get _) as [e|r]; [reflexivity|].
    destruct (raise_for_status r); reflexivity.
Qed.

(** C6.  [fetch_data] issues one request.  When [requests.get] raises, or
    [raise_for_status] raises on the response, [fetch_data] raises
    [DataFetchingError] with the text of that exception in its message;
    otherwise it returns the text of the response; there is no other
    outcome. *)
Theorem fetch_data_outcomes (self : loc) (uri : string) (w : world) (a : attrs) :
  heap w !! self = Some (OParser a) ->
  let url := fetch_url (ipfs_endpoint a) uri in
  let w' := World (heap w) (gets w ++ [url]) in
  (forall e, requests_get url = inl e ->
     fetch_data self uri w =
     (Raise (DataFetchingError ("Error fetching data: " +:+ exception_str e)), w')) /\
  (forall r e, requests_get url = inr r -> raise_for_status r = Some e ->
     fetch_data self uri w =
     (Raise (DataFetchingError ("Error fetching data: " +:+ exception_str e)), w')) /\
  (forall r, requests_get url = inr r -> raise_for_status r = None ->
     fetch_data self uri w = (Return (text r), w')) /\
  ((exists r, requests_get url = inr r /\ raise_for_status r = None /\
              (fetch_data self uri w).1 = Return (text r)) \/
   (exists msg, (fetch_data self uri w).1 = Raise (DataFetchingError msg))).
Proof.
  intros Hs url w'. rewrite (fetch_data_run _ _ _ _ Hs). fold url. fold w'.
  repeat split.
  - intros e ->. reflexivity.
  - intros r e -> ->. reflexivity.
  - intros r -> ->. reflexivity.
  - destruct (requests_get url) as [e|r]; [right; eexists; reflexivity|].
    destruct (raise_for_status r) as [e|] eqn:Hst; [right; eexists; reflexivity|].
    left. exists r. auto.
Qed.

(** ** The on-chain handler *)

Lemma world_eta (w : world) : World (heap w) (gets w) = w.
Proof. destruct w; reflexivity. Qed.

Lemma set_item_run (w : world) (l : loc) (d : dict) (k : key) (v : val) :
  heap w !! l = Some (ODict d) ->
  set_item l k v w = (Return tt, World (<[l := ODict (dict_set d k v)]> (heap w)) (gets w)).
Proof.
  intros Hl. unfold set_item. rewrite (bind_Return _ _ _ _ _ (get_dict_run _ _ _ Hl)).
  reflexivity.
Qed.

Lemma filled_cons (m : gmap Z Slice) (s : string) (names : list string) (items : dict) :
  filled m (s :: names) items = filled m names (fill_one m items s).
Proof. reflexivity. Qed.

Lemma filled_ext (m m' : gmap Z Slice) (names : list string) (items : dict) :
  (forall s, s ∈ names -> m' !! calculate_key s = m !! calculate_key s) ->
  filled m' names items = filled m names items.
Proof.
  revert items; induction names as [|s names IH]; intros items Hsame; [reflexivity|].
  rewrite !filled_cons.
  replace (fill_one m' items s) with (fill_one m items s)
    by (unfold fill_one; rewrite Hsame by apply list_elem_of_here; reflexivity).
  apply IH. intros s' Hs'. apply Hsame. apply list_elem_of_further, Hs'.
Qed.

(** The loop of lines 180-184, when the keys of the names do not collide and
    every value met can be read: [all_metadata] ends as [filled] says, and
    nothing else changes. *)
Lemma fill_metadata_run (names : list string) (m : gmap Z Slice) (items : dict)
    (w : world) (am : loc) :
  heap w !! am = Some (ODict items) ->
  NoDup (calculate_key <$> names) ->
  (forall s chunk, s ∈ names -> m !! calculate_key s = Some chunk ->
                   is_Some (snake_text chunk)) ->
  fill_metadata (keys_dict names) (Some m) am w =
  (Return tt, World (<[am := ODict (filled m names items)]> (heap w)) (gets w)).
Proof.
  revert m items w; induction names as [|s names IH]; intros m items w Ham Hnd Hok.
  - cbn. rewrite list_insert_id by exact Ham. rewrite world_eta. reflexivity.
  - rewrite fmap_cons in Hnd. apply NoDup_cons in Hnd as [Hs Hnd].
    cbn [keys_dict map fill_metadata]. fold (keys_dict names).
    rewrite filled_cons. unfold fill_one.
    destruct (m !! calculate_key s) as [chunk|] eqn:Hm.
    + destruct (Hok s chunk (list_elem_of_here _ _) Hm) as [t Ht].
      rewrite Ht. unfold snake_text in Ht.
      destruct (load_snake_string chunk) as [[t' chunk']|e] eqn:Hload; [|discriminate].
      injection Ht as ->.
      unfold lift at 1. unfold bind at 1. cbv beta iota.
      rewrite (bind_Return _ _ _ _ _ (set_item_run _ _ _ _ _ Ham)).
      assert (Hlt : (am < length (heap w))%nat) by (eapply lookup_lt_Some, Ham).
      rewrite (IH (<[calculate_key s := chunk']> m) (dict_set items (KStr s) (VStr t))).
      * cbn [heap gets]. rewrite list_insert_insert_eq. rewrite (filled_ext m); [reflexivity|].
        intros s' Hs'. apply lookup_insert_ne. intros Heq. apply Hs.
        rewrite Heq. apply list_elem_of_fmap_2, Hs'.
      * cbn [heap]. apply list_lookup_insert_eq, Hlt.
      * exact Hnd.
      * intros s' chunk0 Hs' Hm'. apply (Hok s' chunk0); [apply list_elem_of_further, Hs'|].
        rewrite lookup_insert_ne in Hm'; [exact Hm'|].
        intros Heq. apply Hs. rewrite Heq. apply list_elem_of_fmap_2, Hs'.
    + apply IH; [exact Ham|exact Hnd|].
      intros s' chunk0 Hs'. apply Hok, list_elem_of_further, Hs'.
Qed.

Lemma metadata_keys_of_names (names : list string) :
  metadata_keys_of (KStr <$> names) = Return (keys_dict names).
Proof.
  induction names as [|s names IH]; [reflexivity|].
  rewrite fmap_cons. cbn [metadata_keys_of calculate_key_of]. rewrite IH. reflexivity.
Qed.

Lemma lookup_ext (h l : list obj) (i : nat) :
  (h ++ l) !! (length h + i)%nat = l !! i.
Proof. rewrite lookup_app_r by lia. f_equal. lia. Qed.

Lemma insert_ext (h l : list obj) (i : nat) (o : obj) :
  <[(length h + i)%nat := o]> (h ++ l) = h ++ <[i := o]> l.
Proof. rewrite insert_app_r_alt by lia. do 2 f_equal. lia. Qed.

Lemma alloc_run (o : obj) (h : list obj) (g : list string) :
  alloc o (World h g) = (Return (length h), World (h ++ [o]) g).
Proof. reflexivity. Qed.

(** The on-chain handler, when the names of the effective default table are
    strs whose keys do not collide, the cell holds a dictionary and every
    value looked up can be read.  Four dicts are allocated: the effective
    default table, [metadata_keys], [all_metadata] and the result. *)
Lemma onchain_run (self : loc) (cs cs' : Slice) (w : world) (a : attrs)
    (extra : dict) (names : list string) (m : gmap Z Slice) :
  heap w !! self = Some (OParser a) ->
  heap w !! extra_default_values a = Some (ODict extra) ->
  dict_keys (effective_defaults extra) = KStr <$> names ->
  NoDup (calculate_key <$> names) ->
  load_dict 256 cs = Return (Some m, cs') ->
  (forall s chunk, s ∈ names -> m !! calculate_key s = Some chunk ->
                   is_Some (snake_text chunk)) ->
  default_handle_onchain_content self cs w =
  (Return (VRef (length (heap w) + 3)%nat),
   World (heap w ++
            [ODict (effective_defaults extra);
             ODict (keys_dict names);
             ODict (filled m names (effective_defaults extra));
             ODict [(KStr "type", VStr "onchain");
                    (KStr "metadata", VRef (length (heap w) + 2)%nat)]])
         (gets w)).
Proof.
  intros Hs Hev Hnames Hnd Hload Hok. destruct w as [h g]. cbn [heap gets] in *.
  unfold default_handle_onchain_content, new_dict.
  unfold bind at 1. rewrite alloc_run.
  erewrite bind_Return; [|apply get_attrs_run, lookup_old, Hs].
  erewrite bind_Return; cycle 1.
  { unfold update_dict.
    erewrite bind_Return; [|apply get_dict_run, lookup_new].
    erewrite bind_Return; [|apply get_dict_run, lookup_old, Hev].
    unfold set_dict. cbn [heap gets].
    rewrite <- (Nat.add_0_r (length h)), insert_ext. cbn [insert list_insert]. reflexivity. }
  erewrite bind_Return; [|apply get_dict_run, lookup_new].
  fold (effective_defaults extra). rewrite Hnames, metadata_keys_of_names.
  unfold lift at 1. unfold bind at 1. cbv beta iota.
  unfold bind at 1. rewrite alloc_run.
  unfold load_metadata. rewrite Hload.
  unfold lift at 1. unfold bind at 1. cbv beta iota.
  rewrite length_app. cbn [length]. rewrite <- app_assoc. cbn [app].
  erewrite bind_Return; cycle 1.
  { unfold copy_dict.
    erewrite bind_Return;
      [|apply get_dict_run; cbn [heap];
        rewrite <- (Nat.add_0_r (length h)), lookup_ext; reflexivity].
    rewrite alloc_run. rewrite length_app. cbn [length].
    rewrite <- app_assoc. cbn [app]. reflexivity. }
  erewrite bind_Return;
    [|apply get_dict_run; cbn [heap]; rewrite (lookup_ext h _ 1); reflexivity].
  erewrite bind_Return; cycle 1.
  { apply fill_metadata_run;
      [cbn [heap]; rewrite (lookup_ext h _ 2); reflexivity|exact Hnd|exact Hok]. }
  cbn [heap gets]. rewrite insert_ext. cbn [insert list_insert].
  unfold bind at 1. rewrite alloc_run. unfold ret.
  rewrite length_app. cbn [length]. rewrite <- app_assoc. cbn [app]. reflexivity.
Qed.

(** ** The configuration is kept *)

Section Keeps.

Variable self : loc.
Variable c : config.

Lemma keeps_ret {A} (a : A) (Q : A -> Prop) : Q a -> keeps self c (ret a) Q.
Proof. intros HQ w Hc. cbn. split; [exact Hc|]. intros a' [= <-]. exact HQ. Qed.

Lemma keeps_raise {A} (e : exn) (Q : A -> Prop) : keeps self c (raise e) Q.
Proof. intros w Hc. cbn. split; [exact Hc|]. discriminate. Qed.

Lemma keeps_lift {A} (o : outcome A) : keeps self c (lift o) any.
Proof. intros w Hc. cbn. split; [exact Hc|]. intros; exact I. Qed.

Lemma keeps_weaken {A} (m : M A) (P Q : A -> Prop) :
  keeps self c m P -> (forall a, P a -> Q a) -> keeps self c m Q.
Proof. intros Hm HPQ w Hc. destruct (Hm w Hc) as [Hc' HP]. split; auto. Qed.

Lemma keeps_bind {A B} (m : M A) (f : A -> M B) (P : A -> Prop) (Q : B -> Prop) :
  keeps self c m P -> (forall a, P a -> keeps self c (f a) Q) ->
  keeps self c (bind m f) Q.
Proof.
  intros Hm Hf w Hc. destruct (Hm w Hc) as [Hc' HP]. unfold bind.
  destruct (m w) as [[a|e] w']; cbn in *.
  - apply (Hf a (HP a eq_refl) w' Hc').
  - split; [exact Hc'|discriminate].
Qed.

Lemma keeps_alloc (o : obj) : keeps self c (alloc o) (outside self c).
Proof.
  intros w Hc. cbn. split.
  - apply (config_of_agree _ _ _ _ Hc). intros l Hl. cbn.
    apply lookup_app_l. eapply config_locs_allocated; eassumption.
  - intros l [= <-] Hl.
    pose proof (config_locs_allocated _ _ _ _ Hc Hl). lia.
Qed.

Lemma keeps_get_dict (l : loc) : keeps self c (get_dict l) any.
Proof.
  intros w Hc. unfold get_dict.
  destruct (heap w !! l) as [[d|a]|]; cbn; (split; [exact Hc|intros; exact I]).
Qed.

Lemma keeps_get_attrs (l : loc) : keeps self c (get_attrs l) any.
Proof.
  intros w Hc. unfold get_attrs.
  destruct (heap w !! l) as [[d|a]|]; cbn; (split; [exact Hc|intros; exact I]).
Qed.

Lemma keeps_set_dict (l : loc) (d : dict) :
  outside self c l -> keeps self c (set_dict l d) any.
Proof.
  intros Hout w Hc. cbn. split; [|intros; exact I].
  apply (config_of_agree _ _ _ _ Hc). intros l' Hl'. cbn.
  apply list_lookup_insert_ne. intros ->. exact (Hout Hl').
Qed.

Lemma keeps_log_get (url : string) : keeps self c (log_get url) any.
Proof.
  intros w Hc. cbn. split; [|intros; exact I].
  apply (config_of_agree _ _ _ _ Hc). reflexivity.
Qed.

Lemma keeps_update_dict (d other : loc) :
  outside self c d -> keeps self c (update_dict d other) any.
Proof.
  intros Hout. unfold update_dict.
  eapply keeps_bind; [apply keeps_get_dict|]. intros items _.
  eapply keeps_bind; [apply keeps_get_dict|]. intros more _.
  apply keeps_set_dict, Hout.
Qed.

Lemma keeps_copy_dict (d : loc) : keeps self c (copy_dict d) (outside self c).
Proof.
  unfold copy_dict. eapply keeps_bind; [apply keeps_get_dict|]. intros items _.
  apply keeps_alloc.
Qed.

Lemma keeps_unpack_dicts (a b : loc) : keeps self c (unpack_dicts a b) (outside self c).
Proof.
  unfold unpack_dicts.
  eapply keeps_bind; [apply keeps_get_dict|]. intros da _.
  eapply keeps_bind; [apply keeps_get_dict|]. intros db _.
  apply keeps_alloc.
Qed.

Lemma keeps_get_item (d : loc) (k : key) : keeps self c (get_item d k) any.
Proof.
  unfold get_item. eapply keeps_bind; [apply keeps_get_dict|]. intros items _.
  apply keeps_ret. exact I.
Qed.

Lemma keeps_set_item (d : loc) (k : key) (v : val) :
  outside self c d -> keeps self c (set_item d k v) any.
Proof.
  intros Hout. unfold set_item.
  eapply keeps_bind; [apply keeps_get_dict|]. intros items _.
  apply keeps_set_dict, Hout.
Qed.

(** [fetch_data] of any parser keeps the configuration. *)
Lemma keeps_fetch_data (parser : loc) (uri : string) :
  keeps self c (fetch_data parser uri) any.
Proof.
  unfold fetch_data. eapply keeps_bind with (P := any).
  - destruct (Py.startswith uri "ipfs://"); [|apply keeps_ret; exact I].
    eapply keeps_bind; [apply keeps_get_attrs|]. intros a _. apply keeps_ret. exact I.
  - intros url _. eapply keeps_bind; [apply keeps_log_get|]. intros _ _.
    destruct (requests_get url) as [e|r]; [apply keeps_raise|].
    destruct (raise_for_status r); [apply keeps_raise|apply keeps_ret; exact I].
Qed.

Lemma keeps_offchain_uri (cs : Slice) : keeps self c (offchain_uri cs) any.
Proof.
  unfold offchain_uri. destruct (refs_is_zero cs).
  - eapply keeps_bind; [apply keeps_lift|]. intros [p cs1] _.
    destruct (negb (p =? 0)); [apply keeps_raise|].
    eapply keeps_bind; [apply keeps_lift|]. intros [uri cs2] _. apply keeps_ret. exact I.
  - eapply keeps_bind; [apply keeps_lift|]. intros [uri cs2] _. apply keeps_ret. exact I.
Qed.

Lemma keeps_offchain (parser : loc) (cs : Slice) :
  keeps self c (default_handle_offchain_content parser cs) any.
Proof.
  unfold default_handle_offchain_content.
  eapply keeps_bind; [apply keeps_offchain_uri|]. intros uri _.
  eapply keeps_bind; [apply keeps_fetch_data|]. intros data _.
  eapply keeps_bind; [apply keeps_alloc|]. intros r _. apply keeps_ret. exact I.
Qed.

Lemma keeps_fill_metadata (items : dict) (metadata : option (gmap Z Slice)) (am : loc) :
  outside self c am -> keeps self c (fill_metadata items metadata am) any.
Proof.
  intros Hout. revert metadata; induction items as [|[label k] items IH]; intros metadata.
  - apply keeps_ret. exact I.
  - cbn [fill_metadata]. destruct metadata as [m|]; [|apply keeps_raise].
    destruct k as [|n| | |]; try apply IH.
    destruct (m !! n) as [chunk|]; [|apply IH].
    eapply keeps_bind; [apply keeps_lift|]. intros [value chunk'] _.
    eapply keeps_bind; [apply keeps_set_item, Hout|]. intros _ _. apply IH.
Qed.

(** The on-chain handler of any parser keeps the configuration: the dict it
    updates and the dict it fills are new objects. *)
Lemma keeps_onchain (parser : loc) (cs : Slice) :
  keeps self c (default_handle_onchain_content parser cs) any.
Proof.
  unfold default_handle_onchain_content, new_dict.
  eapply keeps_bind; [apply keeps_alloc|]. intros defaults Hdefaults.
  eapply keeps_bind; [apply keeps_get_attrs|]. intros a _.
  eapply keeps_bind; [apply keeps_update_dict, Hdefaults|]. intros _ _.
  eapply keeps_bind; [apply keeps_get_dict|]. intros table _.
  eapply keeps_bind; [apply keeps_lift|]. intros keys _.
  eapply keeps_bind; [apply keeps_alloc|]. intros metadata_keys _.
  eapply keeps_bind; [apply keeps_lift|]. intros [metadata cs'] _.
  eapply keeps_bind; [apply keeps_copy_dict|]. intros all_metadata Hall.
  eapply keeps_bind; [apply keeps_get_dict|]. intros items _.
  eapply keeps_bind; [apply keeps_fill_metadata, Hall|]. intros _ _.
  eapply keeps_bind; [apply keeps_alloc|]. intros r _. apply keeps_ret. exact I.
Qed.

Hypothesis user_keeps : forall id cs, keeps self c (user_call id cs) any.

Lemma keeps_call (handler : val) (cs : Slice) :
  keeps self c (call user_call handler cs) any.
Proof.
  destruct handler as [| | | |[parser|parser|id]]; cbn [call];
    auto using keeps_offchain, keeps_onchain; apply keeps_raise.
Qed.

Lemma keeps_parse_content (content : Cell) :
  keeps self c (parse_content user_call self content) any.
Proof.
  unfold parse_content. cbv zeta.
  eapply keeps_bind; [apply keeps_lift|]. intros [p cs1] _.
  eapply keeps_bind; [apply keeps_get_attrs|]. intros a _.
  eapply keeps_bind; [apply keeps_unpack_dicts|]. intros handlers _.
  eapply keeps_bind; [apply keeps_get_item|]. intros handler _.
  intros w Hc. destruct (truthy w handler); [apply keeps_call|apply keeps_raise]; exact Hc.
Qed.

End Keeps.

(** C9.  A call of [parse_content] leaves the configuration as it was,
    whether it returns or raises: the attributes of the instance (among them
    [ipfs_endpoint] and the three references) and the contents of
    [prefix_handlers], [extra_default_values] and [default_handlers].  The
    code of the class writes to new dicts only; the functions the caller
    registered are taken to leave the configuration alone. *)
Theorem parse_content_keeps_config (self : loc) (c : config) (content : Cell) (w : world) :
  (forall id cs w1, config_of self w1 = Some c ->
                    config_of self (user_call id cs w1).2 = Some c) ->
  config_of self w = Some c ->
  config_of self (parse_content user_call self content w).2 = Some c.
Proof.
  intros Huser Hc. apply (keeps_parse_content self c); [|exact Hc].
  intros id cs w1 Hc1. split; [apply Huser, Hc1|intros; exact I].
Qed.

(** ** What the on-chain handler returns *)

Lemma fill_one_keys (m : gmap Z Slice) (items : dict) (s : string) :
  KStr s ∈ dict_keys items -> dict_keys (fill_one m items s) = dict_keys items.
Proof.
  intros Hin. unfold fill_one. destruct (m !! calculate_key s) as [chunk|]; [|reflexivity].
  destruct (snake_text chunk); [|reflexivity]. apply dict_keys_set_in, Hin.
Qed.

Lemma filled_keys (m : gmap Z Slice) (names : list string) (items : dict) :
  (forall s, s ∈ names -> KStr s ∈ dict_keys items) ->
  dict_keys (filled m names items) = dict_keys items.
Proof.
  revert items; induction names as [|s names IH]; intros items Hin; [reflexivity|].
  rewrite filled_cons.
  assert (Hs : KStr s ∈ dict_keys items) by apply Hin, list_elem_of_here.
  rewrite IH; [apply fill_one_keys, Hs|].
  intros s' Hs'. rewrite fill_one_keys by exact Hs. apply Hin, list_elem_of_further, Hs'.
Qed.

(** A key that no turn of the loop writes keeps its value. *)
Lemma filled_get_miss (m : gmap Z Slice) (names : list string) (items : dict) (k : key) :
  (forall s, k = KStr s -> s ∈ names -> m !! calculate_key s = None) ->
  dict_get (filled m names items) k = dict_get items k.
Proof.
  revert items; induction names as [|s names IH]; intros items Hmiss; [reflexivity|].
  rewrite filled_cons, IH.
  - unfold fill_one. destruct (m !! calculate_key s) as [chunk|] eqn:Hm; [|reflexivity].
    destruct (snake_text chunk); [|reflexivity].
    apply dict_get_set_ne. intros <-.
    rewrite (Hmiss s eq_refl (list_elem_of_here _ _)) in Hm. discriminate.
  - intros s' Hk Hs'. apply (Hmiss s' Hk), list_elem_of_further, Hs'.
Qed.

(** A name whose key is in the dictionary gets the text of that entry. *)
Lemma filled_get_hit (m : gmap Z Slice) (names : list string) (items : dict)
    (s : string) (chunk : Slice) (t : string) :
  s ∈ names -> m !! calculate_key s = Some chunk -> snake_text chunk = Some t ->
  dict_get (filled m names items) (KStr s) = Some (VStr t).
Proof.
  intros Hin Hm Ht. revert items; induction names as [|s0 names IH]; intros items.
  - apply elem_of_nil in Hin. contradiction.
  - rewrite filled_cons. destruct (decide (s ∈ names)) as [Hs|Hs]; [apply IH, Hs|].
    apply elem_of_cons in Hin as [<-|Hin]; [|contradiction].
    rewrite filled_get_miss by (intros s' [= <-] Hs'; contradiction).
    unfold fill_one. rewrite Hm, Ht. apply dict_get_set_eq.
Qed.

Lemma filled_none (m : gmap Z Slice) (names : list string) (items : dict) :
  (forall s, s ∈ names -> m !! calculate_key s = None) ->
  filled m names items = items.
Proof.
  revert items; induction names as [|s names IH]; intros items Hnone; [reflexivity|].
  rewrite filled_cons. unfold fill_one. rewrite (Hnone s) by apply list_elem_of_here.
  apply IH. intros s' Hs'. apply Hnone, list_elem_of_further, Hs'.
Qed.

(** X20.  On a cell whose dictionary the reader returns as a dict, the
    on-chain handler returns a dict with ["type"] and ["metadata"]; the
    metadata dict has exactly the names of the effective default table (the
    nine defaults updated with [extra_default_values]), in the same order; a
    name whose SHA-256 key is in the dictionary maps to the snake string of
    that entry, every other name keeps its default; the result depends on
    the dictionary through the keys of these names only; with none of them
    in the dictionary the metadata is the effective default table.  (The
    names are strs whose keys do not collide, and the values looked up can
    be read.) *)
Theorem onchain_metadata (self : loc) (cs cs' : Slice) (w : world) (c : config)
    (names : list string) (m : gmap Z Slice) :
  config_of self w = Some c ->
  let table := effective_defaults (cfg_extra_default_values c) in
  dict_keys table = KStr <$> names ->
  NoDup (calculate_key <$> names) ->
  load_dict 256 cs = Return (Some m, cs') ->
  (forall s chunk, s ∈ names -> m !! calculate_key s = Some chunk ->
                   is_Some (snake_text chunk)) ->
  exists r am w' md,
    default_handle_onchain_content self cs w = (Return (VRef r), w') /\
    heap w' !! r = Some (ODict [(KStr "type", VStr "onchain"); (KStr "metadata", VRef am)]) /\
    heap w' !! am = Some (ODict md) /\
    dict_keys md = dict_keys table /\
    (forall s chunk t,
        s ∈ names -> m !! calculate_key s = Some chunk -> snake_text chunk = Some t ->
        dict_get md (KStr s) = Some (VStr t)) /\
    (forall s, m !! calculate_key s = None -> dict_get md (KStr s) = dict_get table (KStr s)) /\
    (forall m', (forall s, s ∈ names -> m' !! calculate_key s = m !! calculate_key s) ->
                filled m' names table = md) /\
    ((forall s, s ∈ names -> m !! calculate_key s = None) -> md = table).
Proof.
  intros Hc table Hnames Hnd Hload Hok.
  apply config_of_Some in Hc as (Hs & _ & Hev & _).
  pose proof (onchain_run _ _ _ _ _ _ _ _ Hs Hev Hnames Hnd Hload Hok) as Hrun.
  fold table in Hrun.
  eexists _, _, _, (filled m names table). split; [exact Hrun|].
  cbn [heap]. repeat split.
  - rewrite (lookup_ext (heap w) _ 3). reflexivity.
  - rewrite (lookup_ext (heap w) _ 2). reflexivity.
  - apply filled_keys. intros s Hin. rewrite Hnames. apply list_elem_of_fmap_2, Hin.
  - intros s chunk t. apply filled_get_hit.
  - intros s Hm. apply filled_get_miss. intros s' [= <-] _. exact Hm.
  - intros m'. apply filled_ext.
  - apply filled_none.
Qed.

(** X21.  On a cell whose dictionary the reader returns as a dict, the
    effective default table that the on-chain handler builds holds, for
    every name that is both among the nine defaults and in
    [extra_default_values], the value of the caller; and when the dictionary
    has no entry for the key of ["decimals"], the metadata returned holds the
    caller's value for ["decimals"], not the built-in ["9"]. *)
Theorem onchain_override (self : loc) (cs cs' : Slice) (w : world) (c : config)
    (names : list string) (m : gmap Z Slice) :
  config_of self w = Some c ->
  NoDup (dict_keys (cfg_extra_default_values c)) ->
  let table := effective_defaults (cfg_extra_default_values c) in
  dict_keys table = KStr <$> names ->
  NoDup (calculate_key <$> names) ->
  load_dict 256 cs = Return (Some m, cs') ->
  (forall s chunk, s ∈ names -> m !! calculate_key s = Some chunk ->
                   is_Some (snake_text chunk)) ->
  exists r am w' md,
    default_handle_onchain_content self cs w = (Return (VRef r), w') /\
    heap w' !! length (heap w) = Some (ODict table) /\
    heap w' !! r = Some (ODict [(KStr "type", VStr "onchain"); (KStr "metadata", VRef am)]) /\
    heap w' !! am = Some (ODict md) /\
    (forall name v,
        name ∈ dict_keys default_values ->
        dict_get (cfg_extra_default_values c) name = Some v ->
        dict_get table name = Some v) /\
    dict_get default_values (KStr "decimals") = Some (VStr "9") /\
    (forall v,
        dict_get (cfg_extra_default_values c) (KStr "decimals") = Some v ->
        m !! calculate_key "decimals" = None ->
        dict_get md (KStr "decimals") = Some v).
Proof.
  intros Hc Hextra table Hnames Hnd Hload Hok.
  apply config_of_Some in Hc as (Hs & _ & Hev & _).
  pose proof (onchain_run _ _ _ _ _ _ _ _ Hs Hev Hnames Hnd Hload Hok) as Hrun.
  fold table in Hrun.
  assert (Hover : forall name v,
             dict_get (cfg_extra_default_values c) name = Some v ->
             dict_get table name = Some v).
  { intros name v Hget. unfold table, effective_defaults.
    rewrite dict_get_update by exact Hextra. rewrite Hget. reflexivity. }
  eexists _, _, _, (filled m names table). split; [exact Hrun|].
  cbn [heap]. repeat split.
  - rewrite <- (Nat.add_0_r (length (heap w))), lookup_ext. reflexivity.
  - rewrite (lookup_ext (heap w) _ 3). reflexivity.
  - rewrite (lookup_ext (heap w) _ 2). reflexivity.
  - intros name v _. apply Hover.
  - intros v Hget Hm. rewrite filled_get_miss; [apply Hover, Hget|].
    intros s [= <-] _. exact Hm.
Qed.

End Properties.

(** ** Gateway substitution *)

Lemma prefix_append (old rest : string) : String.prefix old (old +:+ rest) = true.
Proof.
  induction old as [|a old IH]; simpl; [destruct rest; reflexivity|].
  destruct (ascii_dec a a); [exact IH|contradiction].
Qed.

Lemma replace_from_absent (old new s : string) :
  occurs old s = false -> Py.replace_from old new O s = s.
Proof.
  induction s as [|a s IH]; [reflexivity|].
  cbn [occurs Py.replace_from]. intros Hocc.
  apply orb_false_iff in Hocc as [-> Hocc]. rewrite IH by exact Hocc. reflexivity.
Qed.

Lemma replace_from_skip (old new pre s : string) :
  Py.replace_from old new (String.length pre) (pre +:+ s) = Py.replace_from old new O s.
Proof.
  induction pre as [|a pre IH]; cbn [String.length append Py.replace_from]; [|exact IH].
  destruct s; reflexivity.
Qed.

(** A URI that holds the scheme once, at its start, is requested from the
    gateway followed by the rest of the URI. *)
Lemma fetch_url_single (endpoint rest : string) :
  occurs "ipfs://" rest = false ->
  fetch_url endpoint ("ipfs://" +:+ rest) = endpoint +:+ rest.
Proof.
  intros Hocc. unfold fetch_url, Py.startswith. rewrite prefix_append.
  unfold Py.replace.
  change ("ipfs://" +:+ rest) with (String "i" ("pfs://" +:+ rest)).
  cbn [Py.replace_from].
  change (String "i" ("pfs://" +:+ rest)) with ("ipfs://" +:+ rest).
  rewrite prefix_append.
  change (String.length "ipfs://" - 1)%nat with (String.length "pfs://").
  rewrite replace_from_skip, replace_from_absent by exact Hocc. reflexivity.
Qed.

(** ** The decimal reading of a byte *)

(** Among the 256 bytes, only 0x00 and 0x01 are read as their own value. *)
Lemma decimal_reading_byte (p : Z) :
  0 <= p < 256 ->
  decimal_reading (Py.bits_of 8 p) = p <-> p = 0 \/ p = 1.
Proof.
  intros Hp.
  assert (Hall : forallb reads_as_itself (map Z.of_nat (seq 0 256)) = true)
    by (vm_compute; reflexivity).
  rewrite forallb_forall in Hall.
  assert (Hin : In p (map Z.of_nat (seq 0 256))).
  { apply in_map_iff. exists (Z.to_nat p). split; [lia|]. apply in_seq. lia. }
  specialize (Hall p Hin). unfold reads_as_itself in Hall.
  apply Bool.eqb_prop in Hall.
  rewrite <- Z.eqb_eq, Hall, orb_true_iff, !Z.eqb_eq. reflexivity.
Qed.

(** ** The sample parser *)

Import Sample Examples Cases.

Lemma booted_config : config_of parser booted = Some the_config.
Proof. reflexivity. Qed.

Lemma muted_config_of : config_of parser muted = Some muted_config.
Proof. reflexivity. Qed.

Lemma the_names_keys :
  dict_keys (effective_defaults (cfg_extra_default_values the_config)) = KStr <$> the_names.
Proof. reflexivity. Qed.

Lemma the_names_NoDup : NoDup (calculate_key <$> the_names).
Proof. apply (bool_decide_unpack _). vm_compute. exact I. Qed.

Lemma sample_values_read (s : string) (chunk : slice) :
  s ∈ the_names -> onchain_dict !! calculate_key s = Some chunk ->
  is_Some (snake_text chunk).
Proof. intros _ _. eexists. reflexivity. Qed.

Lemma sample_user_keeps (id : nat) (cs : slice) (w : world) (c : config) :
  config_of parser w = Some c -> config_of parser (user_call id cs w).2 = Some c.
Proof.
  intros Hc. destruct id as [|[|id]]; [exact Hc| |exact Hc].
  cbn [user_call]. unfold new_dict.
  refine (proj1 (keeps_bind parser c _ _ _ any (keeps_alloc parser c _) _ w Hc)).
  intros r _. apply keeps_ret. exact I.
Qed.

(** C1.  The sample of the source registers a handler for the prefix 0x02.
    On a cell whose first byte is 0x02, [parse_prefix] returns 10, the
    decimal reading of the bits 00000010, and [parse_content] raises
    [InvalidPrefixError] instead of calling the handler registered for 2. *)
Theorem first_byte_two_not_dispatched :
  let cell := cell_of 0x02 "" 0%nat "" None in
  dict_get (registry the_config) (KInt 0x02) = Some (VFunc (UserFunc 0)) /\
  load_bits 8 (begin_parse cell) = Return (Py.bits_of 8 0x02, MkSlice [] 0%nat "" None) /\
  Py.bits_value (Py.bits_of 8 0x02) = 0x02 /\
  parse_prefix (begin_parse cell) = Return (10, MkSlice [] 0%nat "" None) /\
  parse_content user_call parser cell booted =
  (Raise (InvalidPrefixError "Invalid prefix: 10"),
   World (heap booted ++ [ODict (registry the_config)]) []).
Proof. cbv zeta. repeat split; vm_compute; reflexivity. Qed.

(** C5.  On a URI that holds the scheme a second time, [fetch_data]
    requests a URL in which both occurrences are replaced by the gateway,
    which is not the gateway followed by the rest of the URI. *)
Theorem fetch_data_replaces_inner_scheme :
  let uri := "ipfs://a/ipfs://b" in
  Py.startswith uri "ipfs://" = true /\
  fetch_data parser uri booted =
  (Return "body of https://ipfs.io/ipfs/a/https://ipfs.io/ipfs/b",
   World (heap booted) ["https://ipfs.io/ipfs/a/https://ipfs.io/ipfs/b"]) /\
  "https://ipfs.io/ipfs/a/https://ipfs.io/ipfs/b" <> "https://ipfs.io/ipfs/" +:+ "a/ipfs://b".
Proof. cbv zeta. repeat split; try (vm_compute; reflexivity). discriminate. Qed.

(** C4.  The single cell of the sample [offchain_collection_content] of the
    source has no child, and the byte after its prefix is the letter h
    (0x68), not 0x00.  The test [cs.refs == 0] compares a list with an int
    and is false, so the handler reads no marker and raises no
    [InvalidPrefixError]: it takes the snake string of the cell as the URI
    and fetches it. *)
Theorem offchain_single_cell_reads_no_marker :
  let uri := "https://nft.fragment.com/numbers.json" in
  s_refs fragment_slice = 0%nat /\
  (exists cs1, load_bits 8 fragment_slice = Return (Py.bits_of 8 0x68, cs1)) /\
  refs_is_zero fragment_slice = false /\
  offchain_uri fragment_slice booted = (Return uri, booted) /\
  default_handle_offchain_content parser fragment_slice booted =
  (Return (VRef 4%nat),
   World (heap booted ++ [ODict (offchain_record uri ("body of " +:+ uri))]) [uri]).
Proof.
  cbv zeta. split; [reflexivity|]. split; [eexists; vm_compute; reflexivity|].
  split; [reflexivity|]. split; vm_compute; reflexivity.
Qed.

(** C2.  On a cell whose dictionary is empty, which is a dictionary with no
    recognized key, the reader returns [None] and the on-chain handler of a
    parser without extra defaults raises [AttributeError] at the first name
    instead of returning the default table. *)
Theorem onchain_empty_dictionary_raises :
  load_dict 256 empty_slice = Return (None, empty_slice) /\
  config_of parser plain = Some plain_config /\
  cfg_extra_default_values plain_config = [] /\
  (default_handle_onchain_content parser empty_slice plain).1 =
  Raise (OtherError "AttributeError" "'NoneType' object has no attribute 'get'").
Proof. repeat split; vm_compute; reflexivity. Qed.

(** C7.  With a default of the caller for ["decimals"] and a cell whose
    dictionary is empty, so that it has no entry under the key of
    ["decimals"], the on-chain handler builds the table with the caller's
    value and then raises [AttributeError]: no result holds that value. *)
Theorem onchain_empty_dictionary_no_override :
  dict_get (cfg_extra_default_values the_config) (KStr "decimals") = Some (VStr "6") /\
  dict_get (effective_defaults (cfg_extra_default_values the_config)) (KStr "decimals") =
  Some (VStr "6") /\
  load_dict 256 empty_slice = Return (None, empty_slice) /\
  (default_handle_onchain_content parser empty_slice booted).1 =
  Raise (OtherError "AttributeError" "'NoneType' object has no attribute 'get'").
Proof. repeat split; vm_compute; reflexivity. Qed.

(** ** Instances of the theorems on the sample parser *)

Lemma parse_content_unknown_prefix_witness :
  parse_content user_call parser (cell_of 0x07 "" 0%nat "" None) booted =
  (Raise (InvalidPrefixError ("Invalid prefix: " +:+ pretty 111)),
   World (heap booted ++ [ODict (registry the_config)]) (gets booted)).
Proof.
  apply (parse_content_unknown_prefix (H := reader) user_call parser (cell_of 0x07 "" 0%nat "" None)
           booted the_config 111 (MkSlice [] 0%nat "" None)); reflexivity.
Defined.

Lemma parse_content_falsy_handler_witness :
  KInt 0 ∈ dict_keys (registry muted_config) /\
  parse_content user_call parser (cell_of 0x00 "" 1%nat "" (Some [])) muted =
  (Raise (InvalidPrefixError ("Invalid prefix: " +:+ pretty 0)),
   World (heap muted ++ [ODict (registry muted_config)]) (gets muted)).
Proof.
  apply (parse_content_falsy_handler (H := reader) user_call parser (cell_of 0x00 "" 1%nat "" (Some []))
           muted muted_config 0 (MkSlice [] 1%nat "" (Some [])) VNone);
    try reflexivity.
  apply (bool_decide_unpack _). vm_compute. exact I.
Defined.

Lemma fetch_data_outcomes_witness :
  fetch_data parser "https://example.com/missing.json" booted =
  (Raise (DataFetchingError ("Error fetching data: " +:+ "HTTPError 404")),
   World (heap booted) (gets booted ++ ["https://example.com/missing.json"])) /\
  fetch_data parser "https://down.example/m.json" booted =
  (Raise (DataFetchingError ("Error fetching data: " +:+ "ConnectionError")),
   World (heap booted) (gets booted ++ ["https://down.example/m.json"])) /\
  fetch_data parser "ipfs://bafy" booted =
  (Return "body of https://ipfs.io/ipfs/bafy",
   World (heap booted) (gets booted ++ ["https://ipfs.io/ipfs/bafy"])).
Proof.
  split; [|split].
  - exact (proj1 (proj2 (fetch_data_outcomes (H0 := network) parser "https://example.com/missing.json"
                           booted (cfg_attrs the_config) eq_refl))
             (404, "Not Found") "HTTPError 404" eq_refl eq_refl).
  - exact (proj1 (fetch_data_outcomes (H0 := network) parser "https://down.example/m.json"
                    booted (cfg_attrs the_config) eq_refl)
             "ConnectionError" eq_refl).
  - exact (proj1 (proj2 (proj2 (fetch_data_outcomes (H0 := network) parser "ipfs://bafy"
                                  booted (cfg_attrs the_config) eq_refl)))
             (200, "body of https://ipfs.io/ipfs/bafy") eq_refl eq_refl).
Defined.

Lemma onchain_metadata_witness :
  exists r am w' md,
    default_handle_onchain_content parser onchain_slice booted = (Return (VRef r), w') /\
    heap w' !! r = Some (ODict [(KStr "type", VStr "onchain"); (KStr "metadata", VRef am)]) /\
    heap w' !! am = Some (ODict md) /\
    dict_keys md = KStr <$> the_names /\
    dict_get md (KStr "name") = Some (VStr "Token") /\
    dict_get md (KStr "image") = Some VNone /\
    dict_get md (KStr "website") = Some (VStr "https://t.example/").
Proof.
  destruct (onchain_metadata (H := reader) parser onchain_slice onchain_slice booted the_config
              the_names onchain_dict booted_config the_names_keys the_names_NoDup
              eq_refl sample_values_read)
    as (r & am & w' & md & Hrun & Hr & Ham & Hkeys & Hhit & Hmiss & _).
  exists r, am, w', md. repeat split; try assumption.
  - apply (Hhit "name" (value_slice "Token") "Token"); [|reflexivity|reflexivity].
    apply (bool_decide_unpack _). vm_compute. exact I.
  - rewrite (Hmiss "image"); [reflexivity|]. vm_compute. reflexivity.
  - rewrite (Hmiss "website"); [reflexivity|]. vm_compute. reflexivity.
Defined.

Lemma onchain_override_witness :
  exists r am w' md,
    default_handle_onchain_content parser onchain_slice booted = (Return (VRef r), w') /\
    heap w' !! r = Some (ODict [(KStr "type", VStr "onchain"); (KStr "metadata", VRef am)]) /\
    heap w' !! am = Some (ODict md) /\
    dict_get default_values (KStr "decimals") = Some (VStr "9") /\
    dict_get md (KStr "decimals") = Some (VStr "6").
Proof.
  assert (Hnd : NoDup (dict_keys (cfg_extra_default_values the_config)))
    by (apply (bool_decide_unpack _); vm_compute; exact I).
  destruct (onchain_override (H := reader) parser onchain_slice onchain_slice booted the_config
              the_names onchain_dict booted_config Hnd the_names_keys the_names_NoDup
              eq_refl sample_values_read)
    as (r & am & w' & md & Hrun & _ & Hr & Ham & _ & Hnine & Hdec).
  exists r, am, w', md. repeat split; try assumption.
  apply Hdec; [reflexivity|]. vm_compute. reflexivity.
Defined.

Lemma parse_content_keeps_config_witness :
  config_of parser (parse_content user_call parser onchain_cell booted).2 = Some the_config /\
  config_of parser
    (parse_content user_call parser (cell_of 0x02 "" 0%nat "" None) booted).2 =
  Some the_config.
Proof.
  split.
  - exact (parse_content_keeps_config (H := reader) user_call parser the_config onchain_cell booted
             (fun id cs w1 => sample_user_keeps id cs w1 the_config) booted_config).
  - exact (parse_content_keeps_config (H := reader) user_call parser the_config
             (cell_of 0x02 "" 0%nat "" None) booted
             (fun id cs w1 => sample_user_keeps id cs w1 the_config) booted_config).
Defined.

(** * Further properties *)

(** ** The constructor *)

Lemma or_new_dict_run (x : option loc) (w : world) :
  (forall l, x = Some l -> is_Some (dict_at w l)) ->
  exists l w',
    or_new_dict x w = (Return l, w') /\
    dict_at w' l = Some (given w x) /\
    gets w' = gets w /\
    (length (heap w) <= length (heap w'))%nat /\
    (forall (l0 : loc) o, heap w !! l0 = Some o -> heap w' !! l0 = Some o) /\
    (if aliased w x then x = Some l /\ w' = w else l = length (heap w)).
Proof.
  intros Hx. destruct x as [l0|]; cbn [or_new_dict given aliased].
  - destruct (Hx l0 eq_refl) as [d Hd]. rewrite Hd. cbn [default].
    destruct (truthy w (VRef l0)) eqn:Ht.
    + exists l0, w. repeat split; auto.
    + assert (d = []) as ->.
      { apply dict_at_Some in Hd. cbn in Ht. rewrite Hd in Ht.
        destruct d; [reflexivity|discriminate]. }
      exists (length (heap w)), (World (heap w ++ [ODict []]) (gets w)).
      destruct w as [h g]. cbn [heap gets]. repeat split.
      * unfold dict_at. cbn [heap]. rewrite lookup_new. reflexivity.
      * rewrite length_app. lia.
      * intros l1 o. apply lookup_old.
  - exists (length (heap w)), (World (heap w ++ [ODict []]) (gets w)).
    destruct w as [h g]. cbn [heap gets]. repeat split.
    + unfold dict_at. cbn [heap]. rewrite lookup_new. reflexivity.
    + rewrite length_app. lia.
    + intros l1 o. apply lookup_old.
Qed.

(** X1.  [__init__] on arguments that are [None] or dicts returns a new
    instance whose configuration is: the gateway given, the two built-in
    handlers bound to the instance, and for each of the two dict arguments
    its items.  A dict that is not empty is held by reference (the instance
    shares the caller's object); [None] and an empty dict are replaced by a
    new empty dict.  No object of the caller changes and nothing is
    requested. *)
Theorem init_config (endpoint : string) (handlers defaults : option loc) (w : world) :
  (forall l, handlers = Some l -> is_Some (dict_at w l)) ->
  (forall l, defaults = Some l -> is_Some (dict_at w l)) ->
  exists self w',
    init endpoint handlers defaults w = (Return self, w') /\
    (length (heap w) <= self)%nat /\
    (forall (l : loc) o, heap w !! l = Some o -> heap w' !! l = Some o) /\
    gets w' = gets w /\
    exists a,
      config_of self w' =
      Some (Config a (given w handlers) (given w defaults) (builtin_handlers self)) /\
      ipfs_endpoint a = endpoint /\
      (if aliased w handlers then handlers = Some (prefix_handlers a)
       else (length (heap w) <= prefix_handlers a)%nat) /\
      (if aliased w defaults then defaults = Some (extra_default_values a)
       else (length (heap w) <= extra_default_values a)%nat).
Proof.
  intros Hh Hd.
  destruct (or_new_dict_run handlers w Hh) as (ph & w1 & Hrun1 & Hph & Hg1 & Hlen1 & Hold1 & Hal1).
  assert (Hd1 : forall l, defaults = Some l -> is_Some (dict_at w1 l)).
  { intros l Hl. destruct (Hd l Hl) as [d Hdl]. exists d.
    apply dict_at_Some. apply Hold1. apply dict_at_Some, Hdl. }
  destruct (or_new_dict_run defaults w1 Hd1) as (ev & w2 & Hrun2 & Hev & Hg2 & Hlen2 & Hold2 & Hal2).
  assert (Hgiven : given w1 defaults = given w defaults).
  { destruct defaults as [l|]; [|reflexivity]. cbn [given].
    destruct (Hd l eq_refl) as [d Hdl]. rewrite Hdl.
    apply dict_at_Some, Hold1, dict_at_Some in Hdl. rewrite Hdl. reflexivity. }
  assert (Halias : aliased w1 defaults = aliased w defaults).
  { destruct defaults as [l|]; [|reflexivity]. unfold aliased, truthy.
    destruct (Hd l eq_refl) as [d Hdl]. apply dict_at_Some in Hdl.
    rewrite (Hold1 _ _ Hdl), Hdl. reflexivity. }
  rewrite Hgiven in Hev. rewrite Halias in Hal2.
  exists (length (heap w2)),
    (World (heap w2 ++ [OParser (Attrs endpoint ph ev (S (length (heap w2))));
                        ODict (builtin_handlers (length (heap w2)))]) (gets w2)).
  split.
  { unfold init. rewrite (bind_Return _ _ _ _ _ Hrun1), (bind_Return _ _ _ _ _ Hrun2).
    reflexivity. }
  split; [lia|]. split.
  { intros l o Hl. cbn [heap]. apply lookup_old, Hold2, Hold1, Hl. }
  split; [cbn [gets]; congruence|].
  exists (Attrs endpoint ph ev (S (length (heap w2)))). split; [|split; [reflexivity|split]].
  - apply config_of_Some. cbn [cfg_attrs cfg_prefix_handlers cfg_extra_default_values
                                cfg_default_handlers heap prefix_handlers
                                extra_default_values default_handlers].
    repeat split.
    + rewrite <- (Nat.add_0_r (length (heap w2))), lookup_ext. reflexivity.
    + apply lookup_old, Hold2. apply dict_at_Some, Hph.
    + apply lookup_old. apply dict_at_Some, Hev.
    + replace (S (length (heap w2))) with (length (heap w2) + 1)%nat by lia.
      rewrite lookup_ext. reflexivity.
  - cbn [prefix_handlers]. destruct (aliased w handlers); [tauto|lia].
  - cbn [extra_default_values]. destruct (aliased w defaults); [tauto|lia].
Qed.

Section Further.

Context `{CellReader} `{Requests}.
Variable user_call : nat -> Slice -> M val.

(** ** Prefixes and dispatch *)

(** X2.  When reading the prefix fails (the reader raises, for instance on
    a cell of fewer than 8 bits), [parse_content] raises the same exception
    and leaves the world as it was: no registry is built and no handler
    runs. *)
Theorem parse_content_reader_error (self : loc) (content : Cell) (w : world) (e : exn) :
  load_bits 8 (begin_parse content) = Raise e ->
  parse_content user_call self content w = (Raise e, w).
Proof.
  intros Hl. unfold parse_content, parse_prefix. cbv zeta. rewrite Hl. reflexivity.
Qed.

Lemma decimal_fold_bounds (bs : list bool) (acc : Z) :
  let v := fold_left (fun a b => 10 * a + bit_value b) bs acc in
  acc * 10 ^ Z.of_nat (length bs) <= v /\
  10 * v < (10 * acc + 2) * 10 ^ Z.of_nat (length bs).
Proof.
  cbv zeta. revert acc; induction bs as [|b bs IH]; intros acc.
  - cbn. lia.
  - cbn [fold_left length]. rewrite Nat2Z.inj_succ, Z.pow_succ_r by lia.
    destruct (IH (10 * acc + bit_value b)) as [Hlo Hhi].
    assert (0 < 10 ^ Z.of_nat (length bs)) by (apply Z.pow_pos_nonneg; lia).
    destruct b; cbn [bit_value] in *; split; nia.
Qed.

Lemma decimal_fold_inj (bs bs' : list bool) (acc : Z) :
  length bs = length bs' ->
  fold_left (fun a b => 10 * a + bit_value b) bs acc =
  fold_left (fun a b => 10 * a + bit_value b) bs' acc ->
  bs = bs'.
Proof.
  revert bs' acc; induction bs as [|b bs IH]; intros [|b' bs'] acc Hlen Heq;
    try discriminate; [reflexivity|].
  injection Hlen as Hlen. cbn [fold_left] in Heq.
  assert (b = b') as <-.
  { pose proof (decimal_fold_bounds bs (10 * acc + bit_value b)) as [Hlo Hhi].
    pose proof (decimal_fold_bounds bs' (10 * acc + bit_value b')) as [Hlo' Hhi'].
    cbv zeta in *. rewrite Heq in Hlo, Hhi. rewrite <- Hlen in Hlo', Hhi'.
    assert (0 < 10 ^ Z.of_nat (length bs)) by (apply Z.pow_pos_nonneg; lia).
    destruct b, b'; cbn [bit_value] in *; try reflexivity; nia. }
  f_equal. eapply IH; eassumption.
Qed.

(** X3.  [parse_prefix] tells all bytes apart: two cursors whose next eight
    bits differ get different prefix values, although the value is the
    decimal reading of the bits and not the byte. *)
Theorem parse_prefix_injective (cs cs' cs1 cs1' : Slice) (bs bs' : list bool) (p p' : Z) :
  load_bits 8 cs = Return (bs, cs1) -> length bs = 8%nat ->
  load_bits 8 cs' = Return (bs', cs1') -> length bs' = 8%nat ->
  parse_prefix cs = Return (p, cs1) ->
  parse_prefix cs' = Return (p', cs1') ->
  p = p' -> bs = bs'.
Proof.
  intros Hl Hlen Hl' Hlen' Hp Hp' Heq.
  rewrite (parse_prefix_decimal _ _ _ Hl) in Hp by (intros ->; discriminate).
  rewrite (parse_prefix_decimal _ _ _ Hl') in Hp' by (intros ->; discriminate).
  injection Hp as <-. injection Hp' as <-.
  apply (decimal_fold_inj bs bs' 0); [congruence|exact Heq].
Qed.

(** X4.  A function registered under the decimal reading of a byte (10 for
    0x02, 11 for 0x03, ...) is what [parse_content] calls on a cell that
    starts with that byte: it gets the cursor left after the eight bits, runs
    in the world that holds the merged registry as one more object, and its
    outcome is the outcome of [parse_content]. *)
Theorem parse_content_reaches_reading (self : loc) (content : Cell) (w : world)
    (c : config) (byte : Z) (cs1 : Slice) (f : func) :
  config_of self w = Some c ->
  load_bits 8 (begin_parse content) = Return (Py.bits_of 8 byte, cs1) ->
  dict_get (registry c) (KInt (decimal_reading (Py.bits_of 8 byte))) = Some (VFunc f) ->
  parse_content user_call self content w =
  call user_call (VFunc f) cs1 (World (heap w ++ [ODict (registry c)]) (gets w)).
Proof.
  intros Hc Hl Hreg.
  apply (parse_content_dispatch user_call self content w c
           (decimal_reading (Py.bits_of 8 byte)) cs1 f Hc); [|exact Hreg].
  apply parse_prefix_decimal; [exact Hl|discriminate].
Qed.

(** X5.  On a parser whose [default_handlers] are the two built-ins and
    whose caller registered nothing under 0 and 1, a cell that starts with
    the byte 0x00 is decoded by the on-chain handler and one that starts with
    0x01 by the off-chain handler. *)
Theorem parse_content_builtin (self : loc) (content : Cell) (w : world) (c : config)
    (byte : Z) (cs1 : Slice) :
  config_of self w = Some c ->
  cfg_default_handlers c = builtin_handlers self ->
  NoDup (dict_keys (cfg_prefix_handlers c)) ->
  dict_get (cfg_prefix_handlers c) (KInt byte) = None ->
  load_bits 8 (begin_parse content) = Return (Py.bits_of 8 byte, cs1) ->
  byte = 0 \/ byte = 1 ->
  parse_content user_call self content w =
  (if byte =? 0
   then default_handle_onchain_content self cs1
   else default_handle_offchain_content self cs1)
    (World (heap w ++ [ODict (registry c)]) (gets w)).
Proof.
  intros Hc Hdh Hnd Hnone Hl Hbyte.
  assert (Hp : parse_prefix (begin_parse content) = Return (byte, cs1)).
  { rewrite (parse_prefix_decimal _ _ _ Hl) by discriminate.
    destruct Hbyte as [-> | ->]; reflexivity. }
  assert (Hreg : dict_get (registry c) (KInt byte) = dict_get (builtin_handlers self) (KInt byte)).
  { unfold registry. rewrite dict_get_update by exact Hnd. rewrite Hnone, Hdh. reflexivity. }
  destruct Hbyte as [-> | ->].
  - rewrite (parse_content_dispatch user_call self content w c 0 cs1 (BoundOnchain self) Hc Hp);
      [reflexivity|rewrite Hreg; reflexivity].
  - rewrite (parse_content_dispatch user_call self content w c 1 cs1 (BoundOffchain self) Hc Hp);
      [reflexivity|rewrite Hreg; reflexivity].
Qed.

(** X6.  A function the caller registers under a prefix value replaces the
    built-in handler of that value: [parse_content] calls the caller's
    function, whatever [default_handlers] holds there. *)
Theorem parse_content_override (self : loc) (content : Cell) (w : world) (c : config)
    (p : Z) (cs1 : Slice) (id : nat) :
  config_of self w = Some c ->
  NoDup (dict_keys (cfg_prefix_handlers c)) ->
  parse_prefix (begin_parse content) = Return (p, cs1) ->
  dict_get (cfg_prefix_handlers c) (KInt p) = Some (VFunc (UserFunc id)) ->
  parse_content user_call self content w =
  user_call id cs1 (World (heap w ++ [ODict (registry c)]) (gets w)).
Proof.
  intros Hc Hnd Hp Hget.
  rewrite (parse_content_dispatch user_call self content w c p cs1 (UserFunc id) Hc Hp);
    [reflexivity|].
  unfold registry. rewrite dict_get_update by exact Hnd. rewrite Hget. reflexivity.
Qed.

(** X7.  An entry of the merged registry that is true but not a function (a
    non-zero int, a non-empty str) is called all the same: [parse_content]
    raises [TypeError], not [InvalidPrefixError]. *)
Theorem parse_content_not_callable (self : loc) (content : Cell) (w : world) (c : config)
    (p : Z) (cs1 : Slice) (v : val) :
  config_of self w = Some c ->
  parse_prefix (begin_parse content) = Return (p, cs1) ->
  dict_get (registry c) (KInt p) = Some v ->
  (exists n, v = VInt n /\ n <> 0) \/ (exists s, v = VStr s /\ s <> "") ->
  parse_content user_call self content w =
  (Raise (OtherError "TypeError" "object is not callable"),
   World (heap w ++ [ODict (registry c)]) (gets w)).
Proof.
  intros Hc Hp Hreg Hv. rewrite (parse_content_run _ _ _ _ _ _ _ Hc Hp).
  cbv zeta. rewrite Hreg. change (default VNone (Some v)) with v.
  destruct Hv as [(n & -> & Hn)|(s & -> & Hs)]; unfold truthy.
  - apply Z.eqb_neq in Hn. rewrite Hn. reflexivity.
  - apply String.eqb_neq in Hs. rewrite Hs. reflexivity.
Qed.

(** ** Fetching and the off-chain handler *)

(** X8.  A URI that does not start with ["ipfs://"] is requested as it is,
    once, and the gateway of the instance is not consulted: [self] need not
    even be a parser. *)
Theorem fetch_data_direct (self : loc) (uri : string) (w : world) :
  Py.startswith uri "ipfs://" = false ->
  fetch_data self uri w = (fetched uri, World (heap w) (gets w ++ [uri])).
Proof.
  intros Hs. unfold fetch_data, fetched. rewrite Hs.
  unfold bind at 1, ret at 1. cbv beta iota.
  unfold bind at 1, log_get at 1. cbv beta iota.
  destruct (requests_get uri) as [e|r]; [reflexivity|].
  destruct (raise_for_status r); reflexivity.
Qed.

Lemma fetch_url_gateway (endpoint rest : string) :
  fetch_url endpoint ("ipfs://" +:+ rest) = endpoint +:+ Py.replace rest "ipfs://" endpoint.
Proof.
  unfold fetch_url, Py.startswith. rewrite prefix_append. unfold Py.replace.
  change ("ipfs://" +:+ rest) with (String "i" ("pfs://" +:+ rest)).
  cbn [Py.replace_from].
  change (String "i" ("pfs://" +:+ rest)) with ("ipfs://" +:+ rest).
  rewrite prefix_append.
  change (String.length "ipfs://" - 1)%nat with (String.length "pfs://").
  rewrite replace_from_skip. reflexivity.
Qed.

(** X9.  A URI ["ipfs://" + rest] is requested, once, from a URL that starts
    with the gateway of the instance: the gateway followed by [rest] in which
    every further ["ipfs://"] is replaced too; when [rest] holds no
    ["ipfs://"], the URL is the gateway followed by [rest]. *)
Theorem fetch_data_gateway (self : loc) (rest : string) (w : world) (a : attrs) :
  heap w !! self = Some (OParser a) ->
  let url := ipfs_endpoint a +:+ Py.replace rest "ipfs://" (ipfs_endpoint a) in
  fetch_data self ("ipfs://" +:+ rest) w = (fetched url, World (heap w) (gets w ++ [url])) /\
  (occurs "ipfs://" rest = false -> url = ipfs_endpoint a +:+ rest).
Proof.
  intros Hs url. split.
  - rewrite (fetch_data_run _ _ _ _ Hs). rewrite fetch_url_gateway. reflexivity.
  - intros Hocc. unfold url, Py.replace. rewrite replace_from_absent by exact Hocc.
    reflexivity.
Qed.

Lemma offchain_uri_world (cs : Slice) (w : world) : (offchain_uri cs w).2 = w.
Proof.
  unfold offchain_uri. destruct (refs_is_zero cs).
  - unfold bind at 1, lift at 1. destruct (parse_prefix cs) as [[p cs1]|e]; [|reflexivity].
    destruct (negb (p =? 0)); [reflexivity|].
    unfold bind, lift, ret. destruct (load_string (bits cs1) cs1) as [[uri cs2]|e]; reflexivity.
  - unfold bind, lift, ret. destruct (load_snake_string cs) as [[uri cs2]|e]; reflexivity.
Qed.

(** X10.  When the off-chain handler cannot read the URI (the reader raises,
    or the marker is wrong), it raises that exception, requests nothing and
    allocates nothing. *)
Theorem offchain_unread_uri (self : loc) (cs : Slice) (w : world) (e : exn) :
  (offchain_uri cs w).1 = Raise e ->
  default_handle_offchain_content self cs w = (Raise e, w).
Proof.
  intros He. unfold default_handle_offchain_content. apply bind_Raise.
  rewrite (surjective_pairing (offchain_uri cs w)), He, offchain_uri_world. reflexivity.
Qed.

(** X11.  Once the URI is read, the off-chain handler makes one request, for
    the URL of [fetch_data].  If the fetch fails it raises
    [DataFetchingError] and allocates nothing; if it succeeds it returns one
    new dict with ["type"], the URI as it was read (not the URL requested)
    and the text fetched. *)
Theorem offchain_outcome (self : loc) (cs : Slice) (w : world) (a : attrs) (uri : string) :
  heap w !! self = Some (OParser a) ->
  (offchain_uri cs w).1 = Return uri ->
  let url := fetch_url (ipfs_endpoint a) uri in
  default_handle_offchain_content self cs w =
  match fetched url with
  | Raise e => (Raise e, World (heap w) (gets w ++ [url]))
  | Return data =>
      (Return (VRef (length (heap w))),
       World (heap w ++ [ODict (offchain_record uri data)]) (gets w ++ [url]))
  end.
Proof.
  intros Hs Huri url.
  assert (Hrun : offchain_uri cs w = (Return uri, w))
    by (rewrite (surjective_pairing (offchain_uri cs w)), Huri, offchain_uri_world; reflexivity).
  pose proof (fetch_data_run self uri w a Hs) as Hfetch.
  fold url in Hfetch. fold (fetched url) in Hfetch.
  unfold default_handle_offchain_content. rewrite (bind_Return _ _ _ _ _ Hrun).
  destruct (fetched url) as [data|e].
  - rewrite (bind_Return _ _ _ _ _ Hfetch). reflexivity.
  - rewrite (bind_Raise _ _ _ _ _ Hfetch). reflexivity.
Qed.

(** ** Failures of the on-chain handler *)

(** The first statements of the handler, down to the effective default
    table (lines 162-176). *)
Ltac onchain_table h Hs Hev :=
  unfold default_handle_onchain_content, new_dict;
  unfold bind at 1; rewrite alloc_run;
  erewrite bind_Return; [|apply get_attrs_run, lookup_old, Hs];
  erewrite bind_Return;
    [|unfold update_dict;
      erewrite bind_Return; [|apply get_dict_run, lookup_new];
      erewrite bind_Return; [|apply get_dict_run, lookup_old, Hev];
      unfold set_dict; cbn [heap gets];
      rewrite <- (Nat.add_0_r (length h)), insert_ext; cbn [insert list_insert];
      reflexivity];
  erewrite bind_Return; [|apply get_dict_run, lookup_new];
  match goal with
  | |- context [dict_update default_values ?e] => fold (effective_defaults e)
  end.

(** The statements after the table, down to the loop (lines 176-180). *)
Ltac onchain_loop h Hnames Hload :=
  rewrite Hnames, metadata_keys_of_names;
  unfold lift at 1; unfold bind at 1; cbv beta iota;
  unfold bind at 1; rewrite alloc_run;
  unfold load_metadata; rewrite Hload;
  unfold lift at 1; unfold bind at 1; cbv beta iota;
  rewrite length_app; cbn [length]; rewrite <- app_assoc; cbn [app];
  erewrite bind_Return;
    [|unfold copy_dict;
      erewrite bind_Return;
        [|apply get_dict_run; cbn [heap];
          rewrite <- (Nat.add_0_r (length h)), lookup_ext; reflexivity];
      rewrite alloc_run; rewrite length_app; cbn [length];
      rewrite <- app_assoc; cbn [app]; reflexivity];
  erewrite bind_Return;
    [|apply get_dict_run; cbn [heap]; rewrite (lookup_ext h _ 1); reflexivity].

Lemma metadata_keys_of_int (labels : list key) (n : Z) :
  KInt n ∈ labels ->
  metadata_keys_of labels =
  Raise (OtherError "AttributeError" "'int' object has no attribute 'encode'").
Proof.
  induction labels as [|label labels IH]; intros Hin.
  - apply elem_of_nil in Hin. contradiction.
  - cbn [metadata_keys_of]. destruct label as [n'|s]; [reflexivity|].
    cbn [calculate_key_of]. apply elem_of_cons in Hin as [Hin|Hin]; [discriminate|].
    rewrite (IH Hin). reflexivity.
Qed.

Lemma table_has_uri (extra : dict) : KStr "uri" ∈ dict_keys (effective_defaults extra).
Proof. apply dict_keys_update. left. apply list_elem_of_here. Qed.

(** X12.  A name in [extra_default_values] that is an int and not a str
    makes the on-chain handler raise [AttributeError] on every cell, before
    the cell is read: [calculate_key] calls [encode] on each name. *)
Theorem onchain_int_name (self : loc) (cs : Slice) (w : world) (c : config) (n : Z) :
  config_of self w = Some c ->
  KInt n ∈ dict_keys (cfg_extra_default_values c) ->
  default_handle_onchain_content self cs w =
  (Raise (OtherError "AttributeError" "'int' object has no attribute 'encode'"),
   World (heap w ++ [ODict (effective_defaults (cfg_extra_default_values c))]) (gets w)).
Proof.
  intros Hc Hin. apply config_of_Some in Hc as (Hs & _ & Hev & _).
  destruct w as [h g]. cbn [heap gets] in *.
  onchain_table h Hs Hev.
  rewrite (metadata_keys_of_int _ n); [reflexivity|].
  apply dict_keys_update. right. exact Hin.
Qed.

(** X13.  When the reader fails to load the dictionary, the on-chain
    handler raises the reader's exception; when the reader returns [None]
    for the dictionary, the handler raises [AttributeError] at the first
    name, since the table is never empty.  Nothing is returned in either
    case. *)
Theorem onchain_no_dictionary (self : loc) (cs : Slice) (w : world) (c : config)
    (names : list string) :
  config_of self w = Some c ->
  dict_keys (effective_defaults (cfg_extra_default_values c)) = KStr <$> names ->
  (forall e, load_dict 256 cs = Raise e ->
             (default_handle_onchain_content self cs w).1 = Raise e) /\
  (forall cs', load_dict 256 cs = Return (None, cs') ->
               (default_handle_onchain_content self cs w).1 =
               Raise (OtherError "AttributeError" "'NoneType' object has no attribute 'get'")).
Proof.
  intros Hc Hnames. apply config_of_Some in Hc as (Hs & _ & Hev & _).
  destruct w as [h g]. cbn [heap gets] in *. split.
  - intros e Hload. onchain_table h Hs Hev.
    rewrite Hnames, metadata_keys_of_names.
    unfold lift at 1. unfold bind at 1. cbv beta iota.
    unfold bind at 1. rewrite alloc_run.
    unfold load_metadata. rewrite Hload. reflexivity.
  - intros cs' Hload.
    destruct names as [|s names].
    { pose proof (table_has_uri (cfg_extra_default_values c)) as Huri.
      rewrite Hnames in Huri. apply elem_of_nil in Huri. contradiction. }
    onchain_table h Hs Hev. onchain_loop h Hnames Hload. reflexivity.
Qed.

(** The loop stops at the first value that cannot be read, with the
    exception of the reader. *)
Lemma fill_metadata_unreadable (names : list string) (m : gmap Z Slice) (items : dict)
    (w : world) (am : loc) (s : string) (chunk : Slice) :
  heap w !! am = Some (ODict items) ->
  NoDup (calculate_key <$> names) ->
  s ∈ names -> m !! calculate_key s = Some chunk -> snake_text chunk = None ->
  exists e s' chunk',
    (fill_metadata (keys_dict names) (Some m) am w).1 = Raise e /\
    s' ∈ names /\ m !! calculate_key s' = Some chunk' /\
    load_snake_string chunk' = Raise e.
Proof.
  revert m items w; induction names as [|s0 names IH]; intros m items w Ham Hnd Hin Hm Hbad.
  - apply elem_of_nil in Hin. contradiction.
  - rewrite fmap_cons in Hnd. apply NoDup_cons in Hnd as [Hs0 Hnd].
    cbn [keys_dict map fill_metadata]. fold (keys_dict names).
    assert (Hother : forall s', s' ∈ names -> calculate_key s' <> calculate_key s0).
    { intros s' Hs' Heq. apply Hs0. rewrite <- Heq. apply list_elem_of_fmap_2, Hs'. }
    destruct (m !! calculate_key s0) as [chunk0|] eqn:Hm0.
    + destruct (load_snake_string chunk0) as [[t chunk1]|e] eqn:Hload.
      * assert (Hs : s ∈ names).
        { apply elem_of_cons in Hin as [->|Hin]; [|exact Hin].
          rewrite Hm0 in Hm. injection Hm as <-.
          unfold snake_text in Hbad. rewrite Hload in Hbad. discriminate. }
        unfold lift at 1. unfold bind at 1. cbv beta iota.
        rewrite (bind_Return _ _ _ _ _ (set_item_run _ _ _ _ _ Ham)).
        assert (Hlt : (am < length (heap w))%nat) by (eapply lookup_lt_Some, Ham).
        destruct (IH (<[calculate_key s0 := chunk1]> m) (dict_set items (KStr s0) (VStr t))
                    (World (<[am := ODict (dict_set items (KStr s0) (VStr t))]> (heap w))
                           (gets w)))
          as (e & s' & chunk' & Hrun & Hs' & Hm' & Hload').
        { cbn [heap]. apply list_lookup_insert_eq, Hlt. }
        { exact Hnd. }
        { exact Hs. }
        { rewrite lookup_insert_ne; [exact Hm|]. intros Heq. exact (Hother s Hs (eq_sym Heq)). }
        { exact Hbad. }
        exists e, s', chunk'. repeat split; try assumption.
        -- apply list_elem_of_further, Hs'.
        -- rewrite lookup_insert_ne in Hm'; [exact Hm'|].
           intros Heq. exact (Hother s' Hs' (eq_sym Heq)).
      * exists e, s0, chunk0.
        split; [|split; [apply list_elem_of_here|split; [exact Hm0|exact Hload]]].
        unfold lift at 1. unfold bind at 1. reflexivity.
    + assert (Hs : s ∈ names).
      { apply elem_of_cons in Hin as [->|Hin]; [|exact Hin]. congruence. }
      destruct (IH m items w Ham Hnd Hs Hm Hbad) as (e & s' & chunk' & Hrun & Hs' & Hm' & Hload').
      exists e, s', chunk'. repeat split; try assumption. apply list_elem_of_further, Hs'.
Qed.

(** X14.  If the value of one of the names cannot be read, the on-chain
    handler returns nothing: it raises the exception the reader raised on a
    value of the dictionary, and the names already filled are lost with
    [all_metadata]. *)
Theorem onchain_unreadable_value (self : loc) (cs cs' : Slice) (w : world) (c : config)
    (names : list string) (m : gmap Z Slice) (s : string) (chunk : Slice) :
  config_of self w = Some c ->
  dict_keys (effective_defaults (cfg_extra_default_values c)) = KStr <$> names ->
  NoDup (calculate_key <$> names) ->
  load_dict 256 cs = Return (Some m, cs') ->
  s ∈ names -> m !! calculate_key s = Some chunk -> snake_text chunk = None ->
  exists e s' chunk',
    (default_handle_onchain_content self cs w).1 = Raise e /\
    s' ∈ names /\ m !! calculate_key s' = Some chunk' /\
    load_snake_string chunk' = Raise e.
Proof.
  intros Hc Hnames Hnd Hload Hin Hm Hbad.
  apply config_of_Some in Hc as (Hs & _ & Hev & _).
  destruct w as [h g]. cbn [heap gets] in *.
  set (table := effective_defaults (cfg_extra_default_values c)) in *.
  destruct (fill_metadata_unreadable names m table
              (World (h ++ [ODict table; ODict (keys_dict names); ODict table]) g)
              (length h + 2)%nat s chunk)
    as (e & s' & chunk' & Hrun & Hs' & Hm' & Hload'); try assumption.
  { cbn [heap]. rewrite (lookup_ext h _ 2). reflexivity. }
  exists e, s', chunk'. repeat split; try assumption.
  onchain_table h Hs Hev. fold table. onchain_loop h Hnames Hload.
  unfold bind at 1.
  destruct (fill_metadata _ _ _ _) as [[u|e0] w']; cbn in Hrun |- *;
    [discriminate|injection Hrun as ->; reflexivity].
Qed.

(** ** What a decode call leaves alone *)

Section Preserved.

Variable I : world -> Prop.
Variable fresh : loc -> Prop.
Hypothesis alloc_ok : forall o, preserves I (alloc o) fresh.
Hypothesis set_ok : forall l d, fresh l -> preserves I (set_dict l d) any.

Lemma preserves_ret {A} (a : A) (Q : A -> Prop) : Q a -> preserves I (ret a) Q.
Proof. intros HQ w Hw. cbn. split; [exact Hw|]. intros a' [= <-]. exact HQ. Qed.

Lemma preserves_raise {A} (e : exn) (Q : A -> Prop) : preserves I (raise e) Q.
Proof. intros w Hw. cbn. split; [exact Hw|discriminate]. Qed.

Lemma preserves_lift {A} (o : outcome A) : preserves I (lift o) any.
Proof. intros w Hw. cbn. split; [exact Hw|intros; exact Logic.I]. Qed.

Lemma preserves_bind {A B} (m : M A) (f : A -> M B) (P : A -> Prop) (Q : B -> Prop) :
  preserves I m P -> (forall a, P a -> preserves I (f a) Q) -> preserves I (bind m f) Q.
Proof.
  intros Hm Hf w Hw. destruct (Hm w Hw) as [Hw' HP]. unfold bind.
  destruct (m w) as [[a|e] w']; cbn in *.
  - apply (Hf a (HP a eq_refl) w' Hw').
  - split; [exact Hw'|discriminate].
Qed.

Lemma preserves_get_dict (l : loc) : preserves I (get_dict l) any.
Proof.
  intros w Hw. unfold get_dict.
  destruct (heap w !! l) as [[d|a]|]; cbn; (split; [exact Hw|intros; exact Logic.I]).
Qed.

Lemma preserves_get_attrs (l : loc) : preserves I (get_attrs l) any.
Proof.
  intros w Hw. unfold get_attrs.
  destruct (heap w !! l) as [[d|a]|]; cbn; (split; [exact Hw|intros; exact Logic.I]).
Qed.

Lemma preserves_set_item (d : loc) (k : key) (v : val) :
  fresh d -> preserves I (set_item d k v) any.
Proof.
  intros Hd. unfold set_item.
  eapply preserves_bind; [apply preserves_get_dict|]. intros items _. apply set_ok, Hd.
Qed.

Lemma preserves_fill_metadata (items : dict) (metadata : option (gmap Z Slice)) (am : loc) :
  fresh am -> preserves I (fill_metadata items metadata am) any.
Proof.
  intros Ham. revert metadata; induction items as [|[label k] items IH]; intros metadata.
  - apply preserves_ret. exact Logic.I.
  - cbn [fill_metadata]. destruct metadata as [m|]; [|apply preserves_raise].
    destruct k as [|n| | |]; try apply IH.
    destruct (m !! n) as [chunk|]; [|apply IH].
    eapply preserves_bind; [apply preserves_lift|]. intros [value chunk'] _.
    eapply preserves_bind; [apply preserves_set_item, Ham|]. intros _ _. apply IH.
Qed.

Lemma preserves_onchain (parser : loc) (cs : Slice) :
  preserves I (default_handle_onchain_content parser cs) any.
Proof.
  unfold default_handle_onchain_content, new_dict, update_dict, copy_dict.
  eapply preserves_bind; [apply alloc_ok|]. intros defaults Hdefaults.
  eapply preserves_bind; [apply preserves_get_attrs|]. intros a _.
  eapply preserves_bind.
  { eapply preserves_bind; [apply preserves_get_dict|]. intros items _.
    eapply preserves_bind; [apply preserves_get_dict|]. intros more _.
    apply set_ok, Hdefaults. }
  intros _ _.
  eapply preserves_bind; [apply preserves_get_dict|]. intros table _.
  eapply preserves_bind; [apply preserves_lift|]. intros keys _.
  eapply preserves_bind; [apply alloc_ok|]. intros metadata_keys _.
  eapply preserves_bind; [apply preserves_lift|]. intros [metadata cs'] _.
  eapply preserves_bind.
  { eapply preserves_bind; [apply preserves_get_dict|]. intros items _. apply alloc_ok. }
  intros all_metadata Hall.
  eapply preserves_bind; [apply preserves_get_dict|]. intros items _.
  eapply preserves_bind; [apply preserves_fill_metadata, Hall|]. intros _ _.
  eapply preserves_bind; [apply alloc_ok|]. intros r _. apply preserves_ret. exact Logic.I.
Qed.

Hypothesis log_ok : forall url, preserves I (log_get url) any.

Lemma preserves_offchain (parser : loc) (cs : Slice) :
  preserves I (default_handle_offchain_content parser cs) any.
Proof.
  unfold default_handle_offchain_content.
  eapply preserves_bind with (P := any).
  { unfold offchain_uri. destruct (refs_is_zero cs).
    - eapply preserves_bind; [apply preserves_lift|]. intros [p cs1] _.
      destruct (negb (p =? 0)); [apply preserves_raise|].
      eapply preserves_bind; [apply preserves_lift|]. intros [uri cs2] _.
      apply preserves_ret. exact Logic.I.
    - eapply preserves_bind; [apply preserves_lift|]. intros [uri cs2] _.
      apply preserves_ret. exact Logic.I. }
  intros uri _. eapply preserves_bind with (P := any).
  { unfold fetch_data. eapply preserves_bind with (P := any).
    - destruct (Py.startswith uri "ipfs://"); [|apply preserves_ret; exact Logic.I].
      eapply preserves_bind; [apply preserves_get_attrs|]. intros a _.
      apply preserves_ret. exact Logic.I.
    - intros url _. eapply preserves_bind; [apply log_ok|]. intros _ _.
      destruct (requests_get url) as [e|r]; [apply preserves_raise|].
      destruct (raise_for_status r); [apply preserves_raise|apply preserves_ret; exact Logic.I]. }
  intros data _.
  eapply preserves_bind; [apply alloc_ok|]. intros r _. apply preserves_ret. exact Logic.I.
Qed.

Hypothesis user_ok : forall id cs, preserves I (user_call id cs) any.

Lemma preserves_parse_content (self : loc) (content : Cell) :
  preserves I (parse_content user_call self content) any.
Proof.
  unfold parse_content, unpack_dicts, get_item. cbv zeta.
  eapply preserves_bind; [apply preserves_lift|]. intros [p cs1] _.
  eapply preserves_bind; [apply preserves_get_attrs|]. intros a _.
  eapply preserves_bind.
  { eapply preserves_bind; [apply preserves_get_dict|]. intros da _.
    eapply preserves_bind; [apply preserves_get_dict|]. intros db _. apply alloc_ok. }
  intros handlers _.
  eapply preserves_bind with (P := any).
  { eapply preserves_bind; [apply preserves_get_dict|]. intros items _.
    apply preserves_ret. exact Logic.I. }
  intros handler _ w Hw. destruct (truthy w handler); [|apply preserves_raise, Hw].
  destruct handler as [| | | |[parser|parser|id]]; cbn [call];
    try (apply preserves_raise, Hw).
  - apply preserves_offchain, Hw.
  - apply preserves_onchain, Hw.
  - apply user_ok, Hw.
Qed.

End Preserved.

Lemma old_kept_alloc (n : nat) (h0 : list obj) (o : obj) :
  preserves (old_kept n h0) (alloc o) (fun l => (n <= l)%nat).
Proof.
  intros w [Hlen Hold]. unfold old_kept, alloc. cbn [fst snd heap]. split; [split|].
  - rewrite length_app. lia.
  - intros l Hl. rewrite lookup_app_l by lia. apply Hold, Hl.
  - intros l [= <-]. exact Hlen.
Qed.

Lemma old_kept_set (n : nat) (h0 : list obj) (l : loc) (d : dict) :
  (n <= l)%nat -> preserves (old_kept n h0) (set_dict l d) any.
Proof.
  intros Hl w [Hlen Hold]. unfold old_kept, set_dict. cbn [fst snd heap].
  split; [split|intros; exact I].
  - rewrite length_insert. exact Hlen.
  - intros l' Hl'. rewrite list_lookup_insert_ne by lia. apply Hold, Hl'.
Qed.

Lemma old_kept_log (n : nat) (h0 : list obj) (url : string) :
  preserves (old_kept n h0) (log_get url) any.
Proof. intros w Hw. cbn. split; [exact Hw|intros; exact I]. Qed.

Lemma old_kept_start (w : world) : old_kept (length (heap w)) (heap w) w.
Proof. split; [lia|reflexivity]. Qed.

Lemma old_kept_lookup (w w' : world) (l : loc) (o : obj) :
  old_kept (length (heap w)) (heap w) w' -> heap w !! l = Some o -> heap w' !! l = Some o.
Proof.
  intros [_ Hold] Hl. rewrite Hold; [exact Hl|]. eapply lookup_lt_Some, Hl.
Qed.

(** X15.  The two built-in handlers never change a dict or a parser
    instance that was in the store before the call, whether they return or
    raise: in the store they write to the dicts they allocate only.  A result
    returned by an earlier call, or a dict of the caller, is the same
    afterwards.  (The cursor they are given is not in the store; reading
    advances it.) *)
Theorem builtin_handlers_keep_objects (parser : loc) (cs : Slice) (w : world)
    (l : loc) (o : obj) :
  heap w !! l = Some o ->
  heap (default_handle_onchain_content parser cs w).2 !! l = Some o /\
  heap (default_handle_offchain_content parser cs w).2 !! l = Some o.
Proof.
  intros Hl. split.
  - eapply old_kept_lookup; [|exact Hl].
    apply (preserves_onchain _ _ (old_kept_alloc _ _) (old_kept_set _ _) parser cs w
             (old_kept_start w)).
  - eapply old_kept_lookup; [|exact Hl].
    apply (preserves_offchain _ _ (old_kept_alloc _ _) (old_kept_log _ _)
             parser cs w (old_kept_start w)).
Qed.

(** X16.  The on-chain handler makes no request, on any cell and whether it
    returns or raises. *)
Theorem onchain_no_request (parser : loc) (cs : Slice) (w : world) :
  gets (default_handle_onchain_content parser cs w).2 = gets w.
Proof.
  apply (preserves_onchain (no_request (gets w)) any) with (w := w); [| |reflexivity].
  - intros o w1 Hw1. cbn. split; [exact Hw1|intros; exact I].
  - intros l d _ w1 Hw1. cbn. split; [exact Hw1|intros; exact I].
Qed.

(** X17.  If the functions of the caller change no object older than their
    call, neither does [parse_content]: every object of the store before the
    call is the same after it, whether it returns or raises. *)
Theorem parse_content_keeps_objects (self : loc) (content : Cell) (w : world)
    (l : loc) (o : obj) :
  (forall id cs n h0 w1, old_kept n h0 w1 -> old_kept n h0 (user_call id cs w1).2) ->
  heap w !! l = Some o ->
  heap (parse_content user_call self content w).2 !! l = Some o.
Proof.
  intros Huser Hl. eapply old_kept_lookup; [|exact Hl].
  apply (preserves_parse_content _ _ (old_kept_alloc _ _) (old_kept_set _ _)
           (old_kept_log _ _)); [|apply old_kept_start].
  intros id cs1 w1 Hw1. split; [apply Huser, Hw1|intros; exact I].
Qed.

(** ** The standard table *)

Lemma standard_names_keys : dict_keys (effective_defaults []) = KStr <$> standard_names.
Proof. reflexivity. Qed.

Lemma standard_names_NoDup : NoDup (calculate_key <$> standard_names).
Proof. apply (bool_decide_unpack _). vm_compute. exact I. Qed.

(** X18.  The keys of the nine standard names are pairwise distinct, so on
    a parser without extra default values the on-chain handler needs no
    assumption on the names: on a cell whose dictionary can be read it
    returns metadata with the nine names in the order of the source, each
    one holding the text under its key when the dictionary has that key and
    its fixed default otherwise. *)
Theorem onchain_standard (self : loc) (cs cs' : Slice) (w : world) (c : config)
    (m : gmap Z Slice) :
  config_of self w = Some c ->
  cfg_extra_default_values c = [] ->
  load_dict 256 cs = Return (Some m, cs') ->
  (forall k chunk, m !! k = Some chunk -> is_Some (snake_text chunk)) ->
  exists r am w' md,
    default_handle_onchain_content self cs w = (Return (VRef r), w') /\
    heap w' !! r = Some (ODict [(KStr "type", VStr "onchain"); (KStr "metadata", VRef am)]) /\
    heap w' !! am = Some (ODict md) /\
    dict_keys md = KStr <$> standard_names /\
    forall name, name ∈ standard_names ->
      dict_get md (KStr name) =
      match m !! calculate_key name with
      | Some chunk => VStr <$> snake_text chunk
      | None => dict_get default_values (KStr name)
      end.
Proof.
  intros Hc Hextra Hload Hok.
  assert (Hnames : dict_keys (effective_defaults (cfg_extra_default_values c)) =
                   KStr <$> standard_names) by (rewrite Hextra; reflexivity).
  apply config_of_Some in Hc as (Hs & _ & Hev & _).
  pose proof (onchain_run _ _ _ _ _ _ _ _ Hs Hev Hnames standard_names_NoDup Hload
                (fun s chunk _ Hm => Hok _ chunk Hm)) as Hrun.
  rewrite Hextra in Hrun.
  eexists _, _, _, (filled m standard_names (effective_defaults [])).
  split; [exact Hrun|]. cbn [heap]. repeat split.
  - rewrite (lookup_ext (heap w) _ 3). reflexivity.
  - rewrite (lookup_ext (heap w) _ 2). reflexivity.
  - rewrite filled_keys; [reflexivity|].
    intros s Hin. rewrite standard_names_keys. apply list_elem_of_fmap_2, Hin.
  - intros name Hin. destruct (m !! calculate_key name) as [chunk|] eqn:Hm.
    + destruct (Hok _ chunk Hm) as [t Ht]. rewrite Ht.
      apply (filled_get_hit m standard_names _ name chunk t Hin Hm Ht).
    + apply filled_get_miss. intros s' [= <-] _. exact Hm.
Qed.

(** ** A parser without handlers of the caller *)

Lemma decimal_reading_apart (p : Z) :
  0 <= p < 256 ->
  decimal_reading (Py.bits_of 8 p) = 0 \/ decimal_reading (Py.bits_of 8 p) = 1 ->
  p = 0 \/ p = 1.
Proof.
  intros Hp Hr.
  assert (Hall : forallb reads_apart (map Z.of_nat (seq 0 256)) = true)
    by (vm_compute; reflexivity).
  rewrite forallb_forall in Hall.
  assert (Hin : In p (map Z.of_nat (seq 0 256))).
  { apply in_map_iff. exists (Z.to_nat p). split; [lia|]. apply in_seq. lia. }
  specialize (Hall p Hin). unfold reads_apart in Hall.
  rewrite <- !Z.eqb_eq, <- !orb_true_iff in *. rewrite Hr in Hall. exact Hall.
Qed.

(** X19.  On a parser with the two built-in handlers and no handler of the
    caller, every cell whose first byte is neither 0x00 nor 0x01 is refused
    with [InvalidPrefixError]; the message shows the decimal reading of the
    byte's bits. *)
Theorem parse_content_default_rejects (self : loc) (content : Cell) (w : world)
    (c : config) (byte : Z) (cs1 : Slice) :
  config_of self w = Some c ->
  cfg_default_handlers c = builtin_handlers self ->
  cfg_prefix_handlers c = [] ->
  load_bits 8 (begin_parse content) = Return (Py.bits_of 8 byte, cs1) ->
  2 <= byte < 256 ->
  parse_content user_call self content w =
  (Raise (InvalidPrefixError
            ("Invalid prefix: " +:+ pretty (decimal_reading (Py.bits_of 8 byte)))),
   World (heap w ++ [ODict (registry c)]) (gets w)).
Proof.
  intros Hc Hdh Hph Hl Hbyte.
  assert (Hp : parse_prefix (begin_parse content) =
               Return (decimal_reading (Py.bits_of 8 byte), cs1))
    by (apply parse_prefix_decimal; [exact Hl|discriminate]).
  rewrite (parse_content_run _ _ _ _ _ _ _ Hc Hp). cbv zeta.
  unfold registry. rewrite Hph, Hdh. cbn [dict_update fold_left].
  assert (Hr : decimal_reading (Py.bits_of 8 byte) <> 0 /\
               decimal_reading (Py.bits_of 8 byte) <> 1).
  { split; intros Heq;
      (destruct (decimal_reading_apart byte ltac:(lia) ltac:(rewrite Heq; auto)); lia). }
  destruct Hr as [Hr0 Hr1]. unfold builtin_handlers. cbn [dict_get].
  destruct (decide (KInt 1 = KInt (decimal_reading (Py.bits_of 8 byte)))) as [Heq|_];
    [injection Heq as Heq; exfalso; exact (Hr1 (eq_sym Heq))|].
  destruct (decide (KInt 0 = KInt (decimal_reading (Py.bits_of 8 byte)))) as [Heq|_];
    [injection Heq as Heq; exfalso; exact (Hr0 (eq_sym Heq))|].
  reflexivity.
Qed.

End Further.

(** ** Instances of the further properties on sample parsers *)

Import Cases.

Lemma tuned_config_of : config_of parser tuned = Some tuned_config.
Proof. reflexivity. Qed.

Lemma overridden_config_of : config_of parser overridden = Some overridden_config.
Proof. reflexivity. Qed.

Lemma misnamed_config_of : config_of parser misnamed = Some misnamed_config.
Proof. reflexivity. Qed.

Lemma plain_config_of : config_of parser plain = Some plain_config.
Proof. reflexivity. Qed.

Lemma sample_user_old (id : nat) (cs : slice) (n : nat) (h0 : list obj) (w : world) :
  old_kept n h0 w -> old_kept n h0 (user_call id cs w).2.
Proof.
  intros Hw. destruct id as [|[|id]]; [exact Hw| |exact Hw].
  cbn [user_call]. unfold new_dict.
  refine (proj1 (preserves_bind (old_kept n h0) _ _ _ any (old_kept_alloc n h0 _) _ w Hw)).
  intros r _. apply preserves_ret. exact I.
Qed.

Lemma init_config_witness :
  exists self w' a,
    init "https://ipfs.io/ipfs/" (Some 0%nat) (Some 1%nat) start = (Return self, w') /\
    config_of self w' = Some (Config a custom_handlers extras (builtin_handlers self)) /\
    prefix_handlers a = 0%nat /\ extra_default_values a = 1%nat.
Proof.
  destruct (init_config "https://ipfs.io/ipfs/" (Some 0%nat) (Some 1%nat) start)
    as (self & w' & Hrun & _ & _ & _ & a & Hc & _ & Hph & Hev).
  - intros l [= <-]. eexists. reflexivity.
  - intros l [= <-]. eexists. reflexivity.
  - exists self, w', a. cbn in Hph, Hev. injection Hph as Hph. injection Hev as Hev.
    repeat split; [exact Hrun|exact Hc|congruence|congruence].
Defined.

Lemma parse_content_reader_error_witness :
  parse_content user_call parser short_cell booted =
  (Raise (OtherError "CellUnderflow" "not enough bits"), booted).
Proof.
  apply (parse_content_reader_error (H := reader) user_call parser short_cell booted).
  reflexivity.
Defined.

Lemma parse_prefix_injective_witness : Py.bits_of 8 0x02 = Py.bits_of 8 0x02.
Proof.
  apply (parse_prefix_injective (H := reader)
           (cell_of 0x02 "" 0%nat "" None) (cell_of 0x02 "" 0%nat "" None)
           (MkSlice [] 0%nat "" None) (MkSlice [] 0%nat "" None)
           (Py.bits_of 8 0x02) (Py.bits_of 8 0x02) 10 10); reflexivity.
Defined.

Lemma parse_content_reaches_reading_witness :
  parse_content user_call parser (cell_of 0x02 "" 0%nat "" None) tuned =
  call user_call (VFunc (UserFunc 1)) (MkSlice [] 0%nat "" None)
    (World (heap tuned ++ [ODict (registry tuned_config)]) (gets tuned)).
Proof.
  apply (parse_content_reaches_reading (H := reader) user_call parser
           (cell_of 0x02 "" 0%nat "" None) tuned tuned_config 0x02
           (MkSlice [] 0%nat "" None) (UserFunc 1)); reflexivity.
Defined.

Lemma parse_content_builtin_witness :
  parse_content user_call parser onchain_cell booted =
  default_handle_onchain_content parser onchain_slice
    (World (heap booted ++ [ODict (registry the_config)]) (gets booted)).
Proof.
  apply (parse_content_builtin (H := reader) user_call parser onchain_cell booted
           the_config 0 onchain_slice); try reflexivity.
  - apply (bool_decide_unpack _). vm_compute. exact I.
  - left. reflexivity.
Defined.

Lemma parse_content_override_witness :
  parse_content user_call parser onchain_cell overridden =
  user_call 1%nat onchain_slice
    (World (heap overridden ++ [ODict (registry overridden_config)]) (gets overridden)).
Proof.
  apply (parse_content_override (H := reader) user_call parser onchain_cell overridden
           overridden_config 0 onchain_slice 1%nat); try reflexivity.
  apply (bool_decide_unpack _). vm_compute. exact I.
Defined.

Lemma parse_content_not_callable_witness :
  parse_content user_call parser (cell_of 0x01 "" 1%nat "x" None) overridden =
  (Raise (OtherError "TypeError" "object is not callable"),
   World (heap overridden ++ [ODict (registry overridden_config)]) (gets overridden)).
Proof.
  apply (parse_content_not_callable (H := reader) user_call parser
           (cell_of 0x01 "" 1%nat "x" None) overridden overridden_config 1
           (MkSlice [] 1%nat "x" None) (VStr "offchain")); try reflexivity.
  right. exists "offchain". split; [reflexivity|discriminate].
Defined.

Lemma fetch_data_direct_witness :
  fetch_data 0%nat "https://example.com/m.json" booted =
  (fetched "https://example.com/m.json",
   World (heap booted) (gets booted ++ ["https://example.com/m.json"])).
Proof.
  apply (fetch_data_direct (H0 := network) 0%nat "https://example.com/m.json" booted).
  reflexivity.
Defined.

Lemma fetch_data_gateway_witness :
  fetch_data parser ("ipfs://" +:+ "bafy") booted =
  (fetched ("https://ipfs.io/ipfs/" +:+ Py.replace "bafy" "ipfs://" "https://ipfs.io/ipfs/"),
   World (heap booted)
         (gets booted ++
          ["https://ipfs.io/ipfs/" +:+ Py.replace "bafy" "ipfs://" "https://ipfs.io/ipfs/"])).
Proof.
  exact (proj1 (fetch_data_gateway (H0 := network) parser "bafy" booted
                  (cfg_attrs the_config) eq_refl)).
Defined.

Lemma offchain_unread_uri_witness :
  default_handle_offchain_content (H := picky) parser garbled_slice booted =
  (Raise (OtherError "UnicodeDecodeError" "invalid start byte"), booted).
Proof.
  apply (offchain_unread_uri (H := picky) parser garbled_slice booted). reflexivity.
Defined.

Lemma offchain_outcome_witness :
  default_handle_offchain_content parser snake_slice booted =
  match fetched (fetch_url "https://ipfs.io/ipfs/" "https://example.com/m.json") with
  | Raise e =>
      (Raise e,
       World (heap booted)
             (gets booted ++ [fetch_url "https://ipfs.io/ipfs/" "https://example.com/m.json"]))
  | Return data =>
      (Return (VRef (length (heap booted))),
       World (heap booted ++ [ODict (offchain_record "https://example.com/m.json" data)])
             (gets booted ++ [fetch_url "https://ipfs.io/ipfs/" "https://example.com/m.json"]))
  end.
Proof.
  apply (offchain_outcome (H := reader) parser snake_slice booted (cfg_attrs the_config)
           "https://example.com/m.json"); reflexivity.
Defined.

Lemma onchain_int_name_witness :
  default_handle_onchain_content parser onchain_slice misnamed =
  (Raise (OtherError "AttributeError" "'int' object has no attribute 'encode'"),
   World (heap misnamed ++
            [ODict (effective_defaults (cfg_extra_default_values misnamed_config))])
         (gets misnamed)).
Proof.
  apply (onchain_int_name (H := reader) parser onchain_slice misnamed misnamed_config 7
           misnamed_config_of).
  apply (bool_decide_unpack _). vm_compute. exact I.
Defined.

Lemma onchain_no_dictionary_witness :
  (default_handle_onchain_content parser bare_slice booted).1 =
  Raise (OtherError "AttributeError" "'NoneType' object has no attribute 'get'").
Proof.
  exact (proj2 (onchain_no_dictionary (H := reader) parser bare_slice booted the_config
                  the_names booted_config the_names_keys) bare_slice eq_refl).
Defined.

Lemma onchain_unreadable_value_witness :
  exists e s' chunk',
    (default_handle_onchain_content (H := picky) parser damaged_slice booted).1 = Raise e /\
    s' ∈ the_names /\ damaged_dict !! calculate_key s' = Some chunk' /\
    load_snake_string (CellReader := picky) chunk' = Raise e.
Proof.
  apply (onchain_unreadable_value (H := picky) parser damaged_slice damaged_slice booted
           the_config the_names damaged_dict "symbol" (value_slice "?")
           booted_config the_names_keys the_names_NoDup eq_refl).
  - apply (bool_decide_unpack _). vm_compute. exact I.
  - vm_compute. reflexivity.
  - reflexivity.
Defined.

Lemma builtin_handlers_keep_objects_witness :
  heap (default_handle_onchain_content parser onchain_slice booted).2 !! 1%nat =
  Some (ODict extras) /\
  heap (default_handle_offchain_content parser snake_slice booted).2 !! 1%nat =
  Some (ODict extras).
Proof.
  split.
  - exact (proj1 (builtin_handlers_keep_objects (H := reader) parser onchain_slice booted
                    1%nat (ODict extras) eq_refl)).
  - exact (proj2 (builtin_handlers_keep_objects (H := reader) parser snake_slice booted
                    1%nat (ODict extras) eq_refl)).
Defined.

Lemma parse_content_keeps_objects_witness :
  heap (parse_content user_call parser onchain_cell booted).2 !! 0%nat =
  Some (ODict custom_handlers).
Proof.
  exact (parse_content_keeps_objects (H := reader) user_call parser onchain_cell booted
           0%nat (ODict custom_handlers) sample_user_old eq_refl).
Defined.

Lemma onchain_standard_witness :
  exists r am w' md,
    default_handle_onchain_content parser onchain_slice plain = (Return (VRef r), w') /\
    heap w' !! am = Some (ODict md) /\
    dict_get md (KStr "name") = Some (VStr "Token") /\
    dict_get md (KStr "decimals") = Some (VStr "9").
Proof.
  destruct (onchain_standard (H := reader) parser onchain_slice onchain_slice plain
              plain_config onchain_dict plain_config_of eq_refl eq_refl
              (fun k chunk _ => ex_intro _ _ eq_refl))
    as (r & am & w' & md & Hrun & _ & Ham & _ & Hget).
  exists r, am, w', md. repeat split; try assumption.
  - rewrite (Hget "name"); [vm_compute; reflexivity|].
    apply (bool_decide_unpack _). vm_compute. exact I.
  - rewrite (Hget "decimals"); [vm_compute; reflexivity|].
    apply (bool_decide_unpack _). vm_compute. exact I.
Defined.

Lemma parse_content_default_rejects_witness :
  parse_content user_call parser (cell_of 0x69 "pfs://x" 0%nat "" None) plain =
  (Raise (InvalidPrefixError
            ("Invalid prefix: " +:+ pretty (decimal_reading (Py.bits_of 8 0x69)))),
   World (heap plain ++ [ODict (registry plain_config)]) (gets plain)).
Proof.
  apply (parse_content_default_rejects (H := reader) user_call parser
           (cell_of 0x69 "pfs://x" 0%nat "" None) plain plain_config 0x69
           (MkSlice (string_bits "pfs://x") 0%nat "" None)); try reflexivity.
  lia.
Defined.
